(** * Connection Hub backend: data mapping, HTTP gateway, storage, execution

    A shallow embedding of the JavaScript back end:

    - [backend/lib/dataMapper.js], class DataMapper: Module [DataMapper]
    - [merged_http2/dataMapper.js], the earlier DataMapper:
      Module [MergedDataMapper]
    - [backend/lib/httpClient.js], class HttpClient: Module [HttpClient]
    - the earlier [backend/lib/httpClient.js]: Module [MergedHttpClient]
    - [backend/lib/storage.js], the connections Map and the log:
      Module [Storage]
    - [backend/lib/validator.js]: Module [Validator]
    - [backend/api/connections-[id]-execute.js], the batch handler:
      Module [ExecuteHandler]
    - the Express route [POST /api/connections/:id/execute]:
      Module [SqlExecute]
    - the serverless handler [backend/api/connections/execute.js]:
      Module [SheetsExecute]

    Modelling conventions.  JavaScript values are the JSON fragment plus
    [undefined]; numbers are integers ([Z]).  An object is the list of its
    own properties in the order in which JavaScript enumerates them: array
    indices first, in ascending order, then the other names in the order of
    their creation.  The prototype of an object is not part of the data
    model: the properties that an object inherits from the built-in
    prototypes (such as [constructor]) read as [undefined], and an
    assignment to [__proto__], which goes to the setter of
    [Object.prototype], leaves the own properties as they are.  Exceptions
    are the [Throw] branch of [outcome]; the network, the clock and the
    shared stores are explicit state. *)

From Stdlib Require Import ZArith Ascii String List Bool Lia Sorted.
From stdpp Require Import base option list strings gmap pretty.

Local Open Scope string_scope.
Local Open Scope Z_scope.

Set Warnings "-register-all".

(** ** JavaScript values *)

Inductive value : Type :=
| VUndefined
| VNull
| VBool (b : bool)
| VNum (n : Z)
| VStr (s : string)
| VArr (items : list value)
| VObj (props : list (string * value)).

(** An object as the ordered list of its own enumerable properties. *)
Abbreviation obj := (list (string * value)).

Module Js.

(** ToBoolean. *)
Definition truthy (v : value) : bool :=
  match v with
  | VUndefined | VNull => false
  | VBool b => b
  | VNum n => negb (n =? 0)
  | VStr s => negb (String.eqb s "")
  | VArr _ | VObj _ => true
  end.

(** [typeof v === 'object'] (which is also true of [null]). *)
Definition typeof_object (v : value) : bool :=
  match v with
  | VNull | VArr _ | VObj _ => true
  | _ => false
  end.

(** [typeof v === 'string']. *)
Definition typeof_string (v : value) : bool :=
  match v with VStr _ => true | _ => false end.

(** [v === undefined]. *)
Definition is_undefined (v : value) : bool :=
  match v with VUndefined => true | _ => false end.

(** [a ?? b]. *)
Definition nullish_or (a b : value) : value :=
  match a with
  | VUndefined | VNull => b
  | _ => a
  end.

(** *** Own properties of objects *)

Fixpoint obj_get (o : obj) (k : string) : option value :=
  match o with
  | [] => None
  | (k', v) :: o' => if String.eqb k' k then Some v else obj_get o' k
  end.

(** [Object.hasOwn(o, k)]. *)
Definition has_own (o : obj) (k : string) : bool :=
  bool_decide (is_Some (obj_get o k)).

(** [Object.keys(o)]. *)
Definition obj_keys (o : obj) : list string := map fst o.

Fixpoint digits_N (s : string) (acc : N) : option N :=
  match s with
  | EmptyString => Some acc
  | String c s' =>
      let n := N_of_ascii c in
      if (48 <=? n)%N && (n <=? 57)%N
      then digits_N s' (10 * acc + (n - 48))%N
      else None
  end.

(** A property name is an array index when it is the canonical decimal
    spelling of an integer from 0 to 2^32 - 2. *)
Definition index_key (k : string) : option N :=
  match k with
  | EmptyString => None
  | String c rest =>
      if Ascii.eqb c "0"%char
      then (match rest with EmptyString => Some 0%N | _ => None end)
      else match digits_N k 0 with
           | Some n => if (n <? 4294967295)%N then Some n else None
           | None => None
           end
  end.


(** Whether a new property [k] is enumerated before the property [k']
    that is already there: an array index comes before every larger index
    and before every name that is not an index; any other name comes after
    all the properties there are. *)
Definition goes_before (k k' : string) : bool :=
  match index_key k, index_key k' with
  | Some n, Some n' => (n <? n')%N
  | Some _, None => true
  | None, _ => false
  end.

(** The property [k], which [o] has, takes the value [v] and keeps its
    place. *)
Fixpoint obj_replace (o : obj) (k : string) (v : value) : obj :=
  match o with
  | [] => []
  | (k', v') :: o' =>
      if String.eqb k' k then (k', v) :: o'
      else (k', v') :: obj_replace o' k v
  end.

(** The property [k], which [o] does not have, is created. *)
Fixpoint obj_insert (o : obj) (k : string) (v : value) : obj :=
  match o with
  | [] => [(k, v)]
  | (k', v') :: o' =>
      if goes_before k k' then (k, v) :: (k', v') :: o'
      else (k', v') :: obj_insert o' k v
  end.

(** CreateDataProperty, by which an object literal, a spread and
    [Object.fromEntries] write the property [k]. *)
Definition obj_define (o : obj) (k : string) (v : value) : obj :=
  if has_own o k then obj_replace o k v else obj_insert o k v.

(** [o[k] = v] for an object [o] whose prototype chain ends in
    [Object.prototype] and holds data properties otherwise.  The name
    [__proto__] is an accessor of [Object.prototype]: unless [o] has a
    property of that name of its own, the assignment calls the setter,
    which changes the prototype of [o] or does nothing, and no property is
    created. *)
Definition obj_set (o : obj) (k : string) (v : value) : obj :=
  if String.eqb k "__proto__" && negb (has_own o k) then o
  else obj_define o k v.

(** [{ ...a, ...b }]: a copy of [a] with the properties of [b] defined
    on it one by one. *)
Definition spread (a b : obj) : obj :=
  fold_left (fun acc kv => obj_define acc (fst kv) (snd kv)) b a.

(** *** Array indices *)

Definition is_digit (c : ascii) : bool :=
  let n := nat_of_ascii c in (48 <=? n)%nat && (n <=? 57)%nat.

Fixpoint digits_value (s : string) (acc : nat) : option nat :=
  match s with
  | EmptyString => Some acc
  | String c s' =>
      if is_digit c
      then digits_value s' (10 * acc + (nat_of_ascii c - 48))%nat
      else None
  end.

(** A property name is an array index when it is the canonical decimal
    spelling of a natural number: ["0"], or digits without a leading zero. *)
Definition array_index (k : string) : option nat :=
  match k with
  | EmptyString => None
  | String c rest =>
      if Ascii.eqb c "0"%char
      then (match rest with EmptyString => Some 0%nat | _ => None end)
      else digits_value k 0
  end.

(** [k in v], for [v] an array or an object. *)
Definition has_property (v : value) (k : string) : bool :=
  match v with
  | VObj o => bool_decide (is_Some (obj_get o k))
  | VArr l =>
      String.eqb k "length"
      || match array_index k with
         | Some i => bool_decide (i < length l)%nat
         | None => false
         end
  | _ => false
  end.

(** [v[k]] for a value other than [undefined] and [null] (reading a
    property of those throws): own properties of objects, elements and
    [length] of arrays, characters and [length] of strings. *)
Definition get_property (v : value) (k : string) : value :=
  match v with
  | VObj o => default VUndefined (obj_get o k)
  | VArr l =>
      if String.eqb k "length" then VNum (Z.of_nat (length l))
      else match array_index k with
           | Some i => default VUndefined (l !! i)
           | None => VUndefined
           end
  | VStr s =>
      if String.eqb k "length" then VNum (Z.of_nat (String.length s))
      else match array_index k with
           | Some i =>
               match String.get i s with
               | Some c => VStr (String c EmptyString)
               | None => VUndefined
               end
           | None => VUndefined
           end
  | _ => VUndefined
  end.

(** *** Strings *)

(** [s.startsWith(p)]. *)
Definition startsWith (p s : string) : bool := String.prefix p s.

(** [s.slice(n)] for [0 <= n]. *)
Fixpoint slice_from (n : nat) (s : string) : string :=
  match n, s with
  | O, _ => s
  | S n', String _ s' => slice_from n' s'
  | S _, EmptyString => EmptyString
  end.

(** [s.split(c)] for a one-character separator: always at least one
    segment, empty segments kept. *)
Fixpoint split_on (c : ascii) (s : string) : list string :=
  match s with
  | EmptyString => [EmptyString]
  | String a s' =>
      if Ascii.eqb a c then EmptyString :: split_on c s'
      else match split_on c s' with
           | seg :: segs => String a seg :: segs
           | [] => [String a EmptyString]
           end
  end.

(** [s.replace(p, r)] for a string pattern: only the first occurrence. *)
Fixpoint replace_first (p r s : string) : string :=
  if String.prefix p s then r ++ slice_from (String.length p) s
  else match s with
       | EmptyString => EmptyString
       | String a s' => String a (replace_first p r s')
       end.

Definition nonempty (s : string) : bool := negb (String.eqb s "").

(** [hay.includes(needle)]. *)
Fixpoint includes (needle hay : string) : bool :=
  String.prefix needle hay
  || match hay with
     | EmptyString => false
     | String _ hay' => includes needle hay'
     end.

(** [items.join(sep)] on strings. *)
Definition join (sep : string) (items : list string) : string :=
  String.concat sep items.

(** ToString, which is also how a value becomes a property name.  Inside
    [Array.prototype.join] the elements [undefined] and [null] print as the
    empty string. *)
Fixpoint to_string (v : value) : string :=
  match v with
  | VUndefined => "undefined"
  | VNull => "null"
  | VBool true => "true"
  | VBool false => "false"
  | VNum n => pretty n
  | VStr s => s
  | VArr items =>
      join ","
        (map (fun e => match e with
                       | VUndefined | VNull => ""
                       | _ => to_string e
                       end) items)
  | VObj _ => "[object Object]"
  end.

(** The own enumerable properties that [{ ...v }] copies: those of an
    object, the indexed elements of an array, the characters of a string,
    nothing for the other values. *)
Fixpoint string_chars (i : nat) (s : string) : obj :=
  match s with
  | EmptyString => []
  | String c s' =>
      (pretty (Z.of_nat i), VStr (String c EmptyString)) :: string_chars (S i) s'
  end.

Definition own_enumerable (v : value) : obj :=
  match v with
  | VObj o => o
  | VArr items => imap (fun i e => (pretty (Z.of_nat i), e)) items
  | VStr s => string_chars 0 s
  | _ => []
  end.

(** *** JSON.stringify *)

Definition dquote : string := String (ascii_of_nat 34) EmptyString.
Definition backslash : string := String (ascii_of_nat 92) EmptyString.

Definition hex_digit (n : nat) : string :=
  String (ascii_of_nat (if (n <? 10)%nat then 48 + n else 87 + n)) EmptyString.

Definition escape_char (c : ascii) : string :=
  let n := nat_of_ascii c in
  if (n =? 34)%nat then backslash ++ dquote
  else if (n =? 92)%nat then backslash ++ backslash
  else if (n =? 8)%nat then backslash ++ "b"
  else if (n =? 12)%nat then backslash ++ "f"
  else if (n =? 10)%nat then backslash ++ "n"
  else if (n =? 13)%nat then backslash ++ "r"
  else if (n =? 9)%nat then backslash ++ "t"
  else if (n <? 32)%nat
       then backslash ++ "u00" ++ hex_digit (n / 16) ++ hex_digit (n mod 16)
  else String c EmptyString.

Fixpoint escape (s : string) : string :=
  match s with
  | EmptyString => EmptyString
  | String c s' => escape_char c ++ escape s'
  end.

Definition quote (s : string) : string := dquote ++ escape s ++ dquote.

(** The text of a value other than a top-level [undefined]: inside an array
    [undefined] prints as [null], inside an object a property whose value is
    [undefined] is left out. *)
Fixpoint stringify_text (v : value) : string :=
  match v with
  | VUndefined => "null"
  | VNull => "null"
  | VBool true => "true"
  | VBool false => "false"
  | VNum n => pretty n
  | VStr s => quote s
  | VArr items => "[" ++ join "," (map stringify_text items) ++ "]"
  | VObj props =>
      "{" ++ join ","
               (flat_map (fun kv =>
                            match kv with
                            | (k, w) =>
                                if is_undefined w then []
                                else [quote k ++ ":" ++ stringify_text w]
                            end) props)
          ++ "}"
  end.

(** [JSON.stringify(v)]; [None] is the [undefined] it returns for
    [undefined]. *)
Definition stringify (v : value) : option string :=
  match v with
  | VUndefined => None
  | _ => Some (stringify_text v)
  end.

(** *** Date.prototype.toISOString *)

Definition pad (width : nat) (n : Z) : string :=
  let digits := pretty (Z.abs n) in
  String.concat "" (repeat "0" (width - String.length digits)) ++ digits.

(** Year, month, day of the proleptic Gregorian calendar for a day count
    from 1970-01-01. *)
Definition civil_from_days (days : Z) : Z * Z * Z :=
  let z := days + 719468 in
  let era := z / 146097 in
  let doe := z - era * 146097 in
  let yoe := (doe - doe / 1460 + doe / 36524 - doe / 146096) / 365 in
  let doy := doe - (365 * yoe + yoe / 4 - yoe / 100) in
  let mp := (5 * doy + 2) / 153 in
  let d := doy - (153 * mp + 2) / 5 + 1 in
  let m := if mp <? 10 then mp + 3 else mp - 9 in
  let y := yoe + era * 400 + (if m <=? 2 then 1 else 0) in
  (y, m, d).

Definition toISOString (ms : Z) : string :=
  let days := ms / 86400000 in
  let rest := ms mod 86400000 in
  let '(y, m, d) := civil_from_days days in
  let year := if (0 <=? y) && (y <=? 9999) then pad 4 y
              else (if y <? 0 then "-" else "+") ++ pad 6 y in
  year ++ "-" ++ pad 2 m ++ "-" ++ pad 2 d ++ "T"
       ++ pad 2 (rest / 3600000) ++ ":" ++ pad 2 (rest / 60000 mod 60) ++ ":"
       ++ pad 2 (rest / 1000 mod 60) ++ "." ++ pad 3 (rest mod 1000) ++ "Z".

End Js.

(** ** Exceptions *)

(** An [Error] object: its [name] and [message], and the [status] and [body]
    that [HttpClient.request] attaches to the error of a non-2xx response. *)
Record js_error : Type := {
  err_name : string;
  err_message : string;
  err_status : option Z;
  err_body : option value
}.

Definition mkError (name message : string) : js_error :=
  {| err_name := name; err_message := message;
     err_status := None; err_body := None |}.

Inductive outcome (A : Type) : Type :=
| Ok (a : A)
| Throw (e : js_error).
Arguments Ok {A} a.
Arguments Throw {A} e.

(** ** backend/lib/dataMapper.js *)

(** One element of the array form of a mapping:
    [{ sourcePath|source, destField|dest, transform? }].  [transform] is
    [None] when the property is missing or falsy; otherwise it is what
    calling the property does with an argument: for a function the value it
    returns or the error it throws, for any other truthy value the
    [TypeError] of calling what is not a function.  A function that changes
    the source data or the result object while it runs is outside the
    model. *)
Record MappingRule : Type := {
  sourcePath : value;
  source : value;
  destField : value;
  dest : value;
  transform : option (value -> outcome value)
}.

(** The [mapping] argument of [DataMapper.transform], by the shape the code
    dispatches on. *)
Inductive primitive : Type :=
| PBool (b : bool)
| PNum (n : Z)
| PStr (s : string).

Inductive MappingSpec : Type :=
| MAbsent                              (* undefined or null *)
| MPrimitive (p : primitive)           (* a boolean, number or string *)
| MKeyed (m : obj)                     (* { destField: sourcePath, ... } *)
| MRuleList (rules : list MappingRule).

Module DataMapper.
Import Js.

(** The loop of [getValueByPath]:
    [if (cur && typeof cur === 'object' && k in cur) cur = cur[k];
     else return undefined]. *)
Fixpoint walk (keys : list string) (cur : value) : value :=
  match keys with
  | [] => cur
  | k :: ks =>
      if truthy cur && typeof_object cur && has_property cur k
      then walk ks (get_property cur k)
      else VUndefined
  end.

(** [path.slice(2).split('.').filter(Boolean)]. *)
Definition path_keys (p : string) : list string :=
  List.filter nonempty (split_on "."%char (slice_from 2 p)).

Definition getValueByPath (o : value) (path : value) : value :=
  if negb (truthy path) || negb (typeof_string path) then VUndefined
  else match path with
       | VStr p =>
           if negb (startsWith "$." p) then VStr p
           else walk (path_keys p) o
       | _ => VUndefined
       end.

(** [rule.destField ?? rule.dest], as the property name it is used for. *)
Definition rule_key (r : MappingRule) : string :=
  to_string (nullish_or (destField r) (dest r)).

(** [rule.transform ? rule.transform(value) : value] for
    [value = getValueByPath(sourceData, rule.sourcePath ?? rule.source)]. *)
Definition rule_value (sourceData : value) (r : MappingRule)
    : outcome value :=
  let srcPath := nullish_or (sourcePath r) (source r) in
  let v := getValueByPath sourceData srcPath in
  match transform r with
  | Some f => f v
  | None => Ok v
  end.

(** The loop of [transformAdvanced], with [result] the object built so
    far. *)
Fixpoint apply_rules (sourceData : value) (mappingRules : list MappingRule)
    (result : obj) : outcome obj :=
  match mappingRules with
  | [] => Ok result
  | rule :: rest =>
      match rule_value sourceData rule with
      | Ok v => apply_rules sourceData rest (obj_set result (rule_key rule) v)
      | Throw e => Throw e
      end
  end.

Definition transformAdvanced (sourceData : value)
    (mappingRules : list MappingRule) : outcome value :=
  match apply_rules sourceData mappingRules [] with
  | Ok result => Ok (VObj result)
  | Throw e => Throw e
  end.

Definition transform (sourceData : value) (mapping : MappingSpec)
    : outcome value :=
  match mapping with
  | MAbsent => Ok sourceData
  | MPrimitive _ => Ok sourceData
  | MKeyed m =>
      if (length (obj_keys m) =? 0)%nat then Ok sourceData
      else Ok (VObj (fold_left
                       (fun result kv =>
                          obj_set result (fst kv)
                            (getValueByPath sourceData (snd kv)))
                       m []))
  | MRuleList rules => transformAdvanced sourceData rules
  end.

End DataMapper.

(** ** merged_http2/dataMapper.js *)

Module MergedDataMapper.
Import Js.

(** [if (value && typeof value === 'object') value = value[key];
     else return undefined]. *)
Fixpoint walk (keys : list string) (cur : value) : value :=
  match keys with
  | [] => cur
  | k :: ks =>
      if truthy cur && typeof_object cur
      then walk ks (get_property cur k)
      else VUndefined
  end.

(** [path.replace('$.', '').split('.').filter(k => k.length > 0)]. *)
Definition path_keys (p : string) : list string :=
  List.filter (fun k => (0 <? String.length k)%nat)
    (split_on "."%char (replace_first "$." "" p)).

Definition getValueByPath (o : value) (path : string) : value :=
  if negb (startsWith "$." path) then VStr path
  else walk (path_keys path) o.

(** [transform]: [Object.keys] and [Object.entries] see the properties of an
    object and the indices of an array alike; a [sourcePath] that is not a
    string has no [startsWith], and calling it throws. *)
Definition mapping_entries (mapping : value) : obj := own_enumerable mapping.

Fixpoint transform_entries (sourceData : value) (entries : obj) (result : obj)
    : outcome obj :=
  match entries with
  | [] => Ok result
  | (destField, VStr p) :: rest =>
      transform_entries sourceData rest
        (obj_set result destField (getValueByPath sourceData p))
  | (_, (VUndefined | VNull) as path) :: _ =>
      Throw (mkError "TypeError"
               ("Cannot read properties of " ++ to_string path
                ++ " (reading 'startsWith')"))
  | (_, _) :: _ =>
      Throw (mkError "TypeError" "path.startsWith is not a function")
  end.

Definition transform (sourceData : value) (mapping : value) : outcome value :=
  if negb (truthy mapping)
     || (length (obj_keys (mapping_entries mapping)) =? 0)%nat
  then Ok sourceData
  else match transform_entries sourceData (mapping_entries mapping) [] with
       | Ok result => Ok (VObj result)
       | Throw e => Throw e
       end.

End MergedDataMapper.

(** ** The world: network, clock, shared store *)

(** The second argument of [fetch]: [method], [headers] and [body]
    ([undefined] and [None] when the object has no such property), whether
    it carries the [signal] of an [AbortController], and the [timeout]
    property that the earlier client sets (which [fetch] does not read). *)
Record fetch_opts : Type := {
  fo_method : value;
  fo_headers : value;
  fo_body : option string;
  fo_signal : bool;
  fo_timeout : option Z
}.

(** What the code reads of a [Response].  Header names are lower case, as
    [Headers] reports them; [res_json] is the result of [res.json()], [None]
    when the body is not JSON and the call throws; [res_text] is the result
    of [res.text()]. *)
Record response : Type := {
  res_status : Z;
  res_statusText : string;
  res_headers : list (string * string);
  res_json : option value;
  res_text : string
}.

(** [res.ok]. *)
Definition res_ok (r : response) : bool :=
  (200 <=? res_status r) && (res_status r <=? 299).

(** The promise returned by [fetch] settles one way or the other. *)
Inductive fetch_outcome : Type :=
| Fulfilled (r : response)
| Rejected (e : js_error).

(** The state a handler runs in.  [w_net k url opts] is how the [k]-th
    [fetch] of the run settles and how many milliseconds that takes; a
    request cut short by its abort signal is a [fetch] rejected with an
    [AbortError].  [w_trace] lists the requests issued so far, oldest first. *)
Record World (S : Type) : Type := {
  w_net : nat -> string -> fetch_opts -> fetch_outcome * Z;
  w_now : Z;
  w_trace : list (string * fetch_opts);
  w_store : S
}.
Arguments w_net {S} _.
Arguments w_now {S} _.
Arguments w_trace {S} _.
Arguments w_store {S} _.

(** Computations that read and write the world and may throw. *)
Definition M (S A : Type) : Type := World S -> outcome A * World S.

Module Eff.

Definition ret {S A} (a : A) : M S A := fun w => (Ok a, w).

Definition throw {S A} (e : js_error) : M S A := fun w => (Throw e, w).

Definition bind {S A B} (m : M S A) (k : A -> M S B) : M S B :=
  fun w =>
    match m w with
    | (Ok a, w') => k a w'
    | (Throw e, w') => (Throw e, w')
    end.

(** [try { m } catch (e) { h }]. *)
Definition try_catch {S A} (m : M S A) (h : js_error -> M S A) : M S A :=
  fun w =>
    match m w with
    | (Ok a, w') => (Ok a, w')
    | (Throw e, w') => h e w'
    end.

Definition lift {S A} (o : outcome A) : M S A := fun w => (o, w).

(** [Date.now()]. *)
Definition date_now {S} : M S Z := fun w => (Ok (w_now w), w).

Definition get_store {S} : M S S := fun w => (Ok (w_store w), w).

Definition put_store {S} (st : S) : M S unit :=
  fun w => (Ok tt, {| w_net := w_net w; w_now := w_now w;
                      w_trace := w_trace w; w_store := st |}).

(** The world once the next [fetch] has settled: the request is on the
    trace and the clock has moved on by the time it took. *)
Definition after_fetch {S} (url : string) (opts : fetch_opts) (w : World S)
    : World S :=
  {| w_net := w_net w;
     w_now := w_now w + (w_net w (length (w_trace w)) url opts).2;
     w_trace := (w_trace w ++ [(url, opts)])%list;
     w_store := w_store w |}.

(** [await fetch(url, opts)]. *)
Definition fetch {S} (url : string) (opts : fetch_opts) : M S response :=
  fun w =>
    match (w_net w (length (w_trace w)) url opts).1 with
    | Fulfilled r => (Ok r, after_fetch url opts w)
    | Rejected e => (Throw e, after_fetch url opts w)
    end.

(** [await res.json()]. *)
Definition json {S} (r : response) : M S value :=
  match res_json r with
  | Some v => ret v
  | None => throw (mkError "SyntaxError" "Unexpected token in JSON")
  end.

End Eff.

Notation "'let*' x ':=' m 'in' k" := (Eff.bind m (fun x => k))
  (at level 10, x name, m at level 100, k at level 200,
   format "'[v' 'let*'  x  ':='  m  'in' '/' k ']'").
Notation "m ';;;' k" := (Eff.bind m (fun _ => k))
  (at level 100, k at level 200, right associativity).

(** ** backend/lib/httpClient.js *)

(** The argument of [HttpClient.request]; a field the caller leaves out is
    [VUndefined] and takes the default of the parameter list.  [timeout] is
    left at its default, as every call in the repository leaves it. *)
Record request_spec : Type := {
  rq_url : string;
  rq_method : value;
  rq_headers : value;
  rq_data : value
}.

(** What [request] resolves to: [{ status, headers, body }]. *)
Record http_result : Type := {
  hr_status : Z;
  hr_headers : obj;
  hr_body : value
}.

Module HttpClient.
Import Js Eff.

(** A destructuring default applies to [undefined] only. *)
Definition or_default (v d : value) : value :=
  if is_undefined v then d else v.

Definition write_methods : list string := ["POST"; "PUT"; "PATCH"; "DELETE"].

(** [['POST','PUT','PATCH','DELETE'].includes(method)]. *)
Definition is_write_method (method : value) : bool :=
  match method with
  | VStr m => existsb (String.eqb m) write_methods
  | _ => false
  end.

(** The [opts] object [request] hands to [fetch]. *)
Definition build_opts (spec : request_spec) : fetch_opts :=
  let method := or_default (rq_method spec) (VStr "GET") in
  let headers := or_default (rq_headers spec) (VObj []) in
  let data := or_default (rq_data spec) VNull in
  {| fo_method := method;
     fo_headers :=
       VObj (spread [("Content-Type", VStr "application/json")]
                    (own_enumerable headers));
     fo_body :=
       if truthy data && is_write_method method then stringify data
       else None;
     fo_signal := true;
     fo_timeout := None |}.

(** [res.headers.get(name)]. *)
Definition headers_get (r : response) (name : string) : option string :=
  snd <$> List.find (fun h => String.eqb (fst h) name) (res_headers r).

(** [Object.fromEntries(res.headers.entries())]. *)
Definition headers_object (r : response) : obj :=
  fold_left (fun acc h => obj_define acc (fst h) (VStr (snd h)))
    (res_headers r) [].

(** [res.headers.get('content-type') || '']. *)
Definition content_type (r : response) : string :=
  match headers_get r "content-type" with
  | Some ct => ct
  | None => ""
  end.

Definition http_error (r : response) (body : value) : js_error :=
  {| err_name := "Error";
     err_message := "HTTP " ++ pretty (res_status r) ++ " " ++ res_statusText r;
     err_status := Some (res_status r);
     err_body := Some body |}.

Definition request {S} (spec : request_spec) : M S http_result :=
  let opts := build_opts spec in
  try_catch
    (let* res := fetch (rq_url spec) opts in
     let* body :=
       (if includes "application/json" (content_type res)
        then json res
        else ret (VStr (res_text res))) in
     if negb (res_ok res) then throw (http_error res body)
     else ret {| hr_status := res_status res;
                 hr_headers := headers_object res;
                 hr_body := body |})
    (fun e =>
       if String.eqb (err_name e) "AbortError"
       then throw (mkError "Error" "Request timeout")
       else throw e).

(** The probe result, [{ healthy, status, latency, timestamp }]. *)
Definition probe_ok (res : response) (start now : Z) : value :=
  VObj [("healthy", VBool (res_ok res));
        ("status", VNum (res_status res));
        ("latency", VNum (now - start));
        ("timestamp", VStr (toISOString now))].

(** The probe result of the catch branch,
    [{ healthy: false, error, latency, timestamp }]. *)
Definition probe_failed (e : js_error) (start now : Z) : value :=
  VObj [("healthy", VBool false);
        ("error", VStr (err_message e));
        ("latency", VNum (now - start));
        ("timestamp", VStr (toISOString now))].

(** [{ method: 'HEAD', signal: controller.signal }]. *)
Definition head_opts : fetch_opts :=
  {| fo_method := VStr "HEAD"; fo_headers := VUndefined; fo_body := None;
     fo_signal := true; fo_timeout := None |}.

(** [{ signal: controller.signal }]: no [method], which [fetch] takes as
    GET. *)
Definition get_opts : fetch_opts :=
  {| fo_method := VUndefined; fo_headers := VUndefined; fo_body := None;
     fo_signal := true; fo_timeout := None |}.

Definition healthCheck {S} (url : string) : M S value :=
  let* start := date_now in
  try_catch
    (let* res := try_catch (fetch url head_opts)
                           (fun _ => fetch url get_opts) in
     let* now := date_now in
     ret (probe_ok res start now))
    (fun e =>
       let* now := date_now in
       ret (probe_failed e start now)).

End HttpClient.

(** ** backend/lib/storage.js *)

(** The module-level [storage] object. *)
Record storage : Type := {
  connections : gmap string obj;
  logs : list obj
}.

Module Storage.
Import Js Eff.

Definition getConnection (id : string) (st : storage) : option obj :=
  connections st !! id.

(** [updateConnection(id, patch)]: the value returned ([None] for [false])
    and the store afterwards. *)
Definition updateConnection (id : string) (patch : value) (st : storage)
    : option obj * storage :=
  match connections st !! id with
  | None => (None, st)
  | Some existing =>
      let updated := spread existing (own_enumerable patch) in
      (Some updated,
       {| connections := <[id := updated]> (connections st);
          logs := logs st |})
  end.

(** [{ timestamp: new Date().toISOString(), ...entry }]. *)
Definition withMeta (now : Z) (entry : value) : obj :=
  spread [("timestamp", VStr (toISOString now))] (own_enumerable entry).

(** [logEvent(entry)] at clock reading [now]. *)
Definition logEvent (now : Z) (entry : value) (st : storage) : storage :=
  let unshifted := withMeta now entry :: logs st in
  {| connections := connections st;
     logs := if (500 <? length unshifted)%nat then take 500 unshifted
             else unshifted |}.

(** The same operations inside a handler. *)
Definition getConnectionM (id : string) : M storage (option obj) :=
  let* st := get_store in ret (getConnection id st).

Definition logEventM (entry : value) : M storage unit :=
  let* now := date_now in
  let* st := get_store in
  put_store (logEvent now entry st).

End Storage.

(** ** What a handler writes to [res] *)

Record http_response : Type := {
  statusCode : Z;
  headers : list (string * string);
  body : option string
}.

(** [res.statusCode = code; res.setHeader('Content-Type','application/json');
     res.end(JSON.stringify(v))]. *)
Definition json_response (code : Z) (v : value) : http_response :=
  {| statusCode := code;
     headers := [("Content-Type", "application/json")];
     body := Js.stringify v |}.

(** ** backend/lib/validator.js *)

Module Validator.
Import Js.

Definition validateExecutePayload (payload : value) : list string :=
  if negb (truthy payload) then ["Payload required"]
  else
    ((if negb (truthy (get_property payload "connectionId"))
      then ["connectionId required"] else [])
     ++ (match get_property payload "records" with
         | VArr _ => []
         | _ => ["records must be an array"]
         end))%list.

End Validator.

(** ** backend/api/connections-[id]-execute.js *)

(** The incoming request: [req.method], the capture group of
    [req.url.match(/connections\/(.+?)\/execute/)] ([None] when the URL does
    not match), and [JSON.parse] of the bytes read from the request ([None]
    when it throws). *)
Record http_request : Type := {
  req_method : option string;
  req_id : option string;
  req_json : option value
}.

Module ExecuteHandler.
Import Js Eff.

(** A rule read from a stored JSON value.  Reading a property of [null] or
    [undefined] throws; a JSON value is never callable, so a truthy
    [transform] property throws when it is called. *)
Definition rule_of_json (r : value) : outcome MappingRule :=
  match r with
  | VUndefined | VNull =>
      Throw (mkError "TypeError"
               ("Cannot read properties of " ++ to_string r
                ++ " (reading 'sourcePath')"))
  | _ =>
      if truthy (get_property r "transform")
      then Throw (mkError "TypeError" "rule.transform is not a function")
      else Ok {| sourcePath := get_property r "sourcePath";
                 source := get_property r "source";
                 destField := get_property r "destField";
                 dest := get_property r "dest";
                 transform := None |}
  end.

Fixpoint rules_of_json (rs : list value) : outcome (list MappingRule) :=
  match rs with
  | [] => Ok []
  | r :: rest =>
      match rule_of_json r with
      | Throw e => Throw e
      | Ok rule =>
          match rules_of_json rest with
          | Throw e => Throw e
          | Ok rules => Ok (rule :: rules)
          end
      end
  end.

(** The stored [mappings] value seen through the dispatch of
    [DataMapper.transform]. *)
Definition mapping_of_json (mapping : value) : outcome MappingSpec :=
  match mapping with
  | VUndefined | VNull => Ok MAbsent
  | VBool b => Ok (MPrimitive (PBool b))
  | VNum n => Ok (MPrimitive (PNum n))
  | VStr s => Ok (MPrimitive (PStr s))
  | VObj m => Ok (MKeyed m)
  | VArr rs =>
      match rules_of_json rs with
      | Ok rules => Ok (MRuleList rules)
      | Throw e => Throw e
      end
  end.

(** [conn.mappings || {}]. *)
Definition conn_mappings (conn : obj) : value :=
  let mappings := get_property (VObj conn) "mappings" in
  if truthy mappings then mappings else VObj [].

(** [mapper.transform(record, conn.mappings || {})]. *)
Definition map_record (record : value) (conn : obj) : outcome value :=
  match mapping_of_json (conn_mappings conn) with
  | Ok spec => DataMapper.transform record spec
  | Throw e => Throw e
  end.

(** [conn.method || 'POST']. *)
Definition conn_method (conn : obj) : value :=
  let m := get_property (VObj conn) "method" in
  if truthy m then m else VStr "POST".

Definition destination_request (conn : obj) (mapped : value) : request_spec :=
  {| rq_url := to_string (get_property (VObj conn) "destinationUrl");
     rq_method := conn_method conn;
     rq_headers := VUndefined;
     rq_data := mapped |}.

(** One element of [results]. *)
Definition execution_result (record mapped : value) (out : http_result)
    : value :=
  VObj [("input", record); ("mapped", mapped);
        ("responseStatus", VNum (hr_status out));
        ("responseBody", hr_body out)].

Definition execute_log (id : string) (mapped : value) (out : http_result)
    : value :=
  VObj [("event", VStr "execute"); ("connectionId", VStr id);
        ("status", VNum (hr_status out)); ("mapped", mapped)].

(** The body of [for (const record of body.records)], with [results] the
    array built so far. *)
Fixpoint run_records (id : string) (conn : obj) (records : list value)
    (results : list value) : M storage (list value) :=
  match records with
  | [] => ret results
  | record :: rest =>
      let* mapped := lift (map_record record conn) in
      let* out := HttpClient.request (destination_request conn mapped) in
      let results' := (results ++ [execution_result record mapped out])%list in
      Storage.logEventM (execute_log id mapped out) ;;;
      run_records id conn rest results'
  end.

Definition id_value (id : option string) : value :=
  match id with
  | Some s => VStr s
  | None => VUndefined
  end.

(** The [try] block of the handler. *)
Definition handler_body (req : http_request) : M storage http_response :=
  let* conn := (match req_id req with
                | Some id => Storage.getConnectionM id
                | None => ret None
                end) in
  match conn with
  | None =>
      ret (json_response 404 (VObj [("error", VStr "Connection not found")]))
  | Some conn =>
      match req_json req with
      | None => throw (mkError "SyntaxError" "Unexpected token in JSON")
      | Some body =>
          let payload :=
            VObj (spread (own_enumerable body)
                         [("connectionId", id_value (req_id req))]) in
          let errors := Validator.validateExecutePayload payload in
          if (0 <? length errors)%nat
          then ret (json_response 400
                      (VObj [("errors", VArr (map VStr errors))]))
          else
            match get_property body "records" with
            | VArr records =>
                let* results :=
                  run_records (default "" (req_id req)) conn records [] in
                ret (json_response 200
                       (VObj [("ok", VBool true);
                              ("count", VNum (Z.of_nat (length results)));
                              ("results", VArr results)]))
            | _ => throw (mkError "TypeError" "body.records is not iterable")
            end
      end
  end.

Definition handler (req : http_request) : M storage http_response :=
  if negb (String.eqb (default "GET" (req_method req)) "POST")
  then ret {| statusCode := 405; headers := [("Allow", "POST")];
              body := None |}
  else
    try_catch (handler_body req)
      (fun e => ret (json_response 500
                       (VObj [("error", VStr (err_message e))]))).

End ExecuteHandler.

(** ** The Express route [POST /api/connections/:id/execute] *)

Module SqlExecute.
Import Js Eff.

(** A row of table [connections].  [mapping_rules] is the JSON array stored
    in the column, [None] for SQL NULL; the counters are the INTEGER columns
    [execution_count], [success_count], [error_count], which the server's
    own INSERT leaves at their default 0 and which are never NULL. *)
Record ConnectionRow : Type := {
  row_id : string;
  row_name : string;
  source_url : string;
  source_method : string;
  source_headers : value;
  dest_url : string;
  dest_method : string;
  dest_headers : value;
  mapping_rules : option (list value);
  last_executed : option Z;
  execution_count : Z;
  success_count : Z;
  error_count : Z
}.

(** A row of table [execution_logs]. *)
Record LogRow : Type := {
  connection_id : string;
  executed_at : Z;
  success : bool;
  source_response : option string;
  dest_response : option string;
  error_message : option string;
  execution_time_ms : Z
}.

Record Db : Type := {
  connections : gmap string ConnectionRow;
  execution_logs : list LogRow
}.

(** [res.status(code).json(v)]. *)
Definition express_json (code : Z) (v : value) : http_response :=
  {| statusCode := code;
     headers := [("Content-Type", "application/json; charset=utf-8")];
     body := stringify v |}.

(** [path.split('.').reduce((current, key) => current?.[key], obj)]. *)
Definition getNestedValue (o : value) (path : string) : value :=
  fold_left
    (fun current key =>
       match current with
       | VUndefined | VNull => VUndefined
       | _ => get_property current key
       end)
    (split_on "."%char path) o.

(** One turn of [for (const rule of connection.mapping_rules)]. *)
Definition apply_rule (sourceData : value) (destData : obj) (rule : value)
    : outcome obj :=
  match rule with
  | VUndefined | VNull =>
      Throw (mkError "TypeError"
               ("Cannot read properties of " ++ to_string rule
                ++ " (reading 'source_path')"))
  | _ =>
      let source_path := get_property rule "source_path" in
      let dest_field := get_property rule "dest_field" in
      if truthy source_path && truthy dest_field then
        match source_path with
        | VStr path =>
            let v := getNestedValue sourceData path in
            if negb (is_undefined v)
            then Ok (obj_set destData (to_string dest_field) v)
            else Ok destData
        | _ => Throw (mkError "TypeError" "path.split is not a function")
        end
      else Ok destData
  end.

Fixpoint apply_rules (sourceData : value) (rules : list value)
    (destData : obj) : outcome obj :=
  match rules with
  | [] => Ok destData
  | rule :: rest =>
      match apply_rule sourceData destData rule with
      | Ok destData' => apply_rules sourceData rest destData'
      | Throw e => Throw e
      end
  end.

(** [destData], from [let destData = sourceData] to the end of the mapping
    block. *)
Definition map_source (sourceData : value) (connection : ConnectionRow)
    : outcome value :=
  match mapping_rules connection with
  | Some (rule :: rest) =>
      match apply_rules sourceData (rule :: rest) [] with
      | Ok destData => Ok (VObj destData)
      | Throw e => Throw e
      end
  | _ => Ok sourceData
  end.

(** [v || {}]. *)
Definition or_empty (v : value) : value :=
  if truthy v then v else VObj [].

Definition source_opts (connection : ConnectionRow) : fetch_opts :=
  {| fo_method := VStr (source_method connection);
     fo_headers := or_empty (source_headers connection);
     fo_body := None;
     fo_signal := false;
     fo_timeout := None |}.

Definition dest_opts (connection : ConnectionRow) (destData : value)
    : fetch_opts :=
  {| fo_method := VStr (dest_method connection);
     fo_headers :=
       VObj (spread [("Content-Type", VStr "application/json")]
                    (own_enumerable (or_empty (dest_headers connection))));
     fo_body := stringify destData;
     fo_signal := false;
     fo_timeout := None |}.

(** The range of an INTEGER column. *)
Definition fits_int4 (n : Z) : bool :=
  (-2147483648 <=? n) && (n <=? 2147483647).

(** The error with which [client.query] rejects when the server refuses a
    statement. *)
Definition db_error (message : string) : js_error :=
  mkError "error" message.

(** Whether the text of a response body is JSON: it is when [res.json()]
    parses it. *)
Definition body_is_json (r : response) : bool :=
  bool_decide (is_Some (res_json r)).

(** [INSERT INTO execution_logs ...]; [executed_at] takes its default.
    The server reads the parameters in their order and refuses the row when
    the text for the JSONB column [dest_response] is not JSON
    ([dest_is_json] says whether it is; NULL always passes) or when
    [execution_time_ms] is outside the INTEGER range; the query then
    rejects and no row is written. *)
Definition insert_log (row : LogRow) (dest_is_json : bool) : M Db unit :=
  if negb dest_is_json
  then throw (db_error "invalid input syntax for type json")
  else if negb (fits_int4 (execution_time_ms row))
  then throw (db_error ("value " ++ dquote ++ pretty (execution_time_ms row)
                        ++ dquote ++ " is out of range for type integer"))
  else
    let* db := get_store in
    put_store {| connections := connections db;
                 execution_logs := (execution_logs db ++ [row])%list |}.

(** The row after [UPDATE connections SET execution_count = execution_count
    + 1, success_count = success_count + $1, error_count = error_count + $2,
    last_executed = CURRENT_TIMESTAMP], with [$1], [$2] as the route passes
    them. *)
Definition bump_stats (ok : bool) (now : Z) (c : ConnectionRow)
    : ConnectionRow :=
  {| row_id := row_id c; row_name := row_name c;
     source_url := source_url c; source_method := source_method c;
     source_headers := source_headers c;
     dest_url := dest_url c; dest_method := dest_method c;
     dest_headers := dest_headers c;
     mapping_rules := mapping_rules c;
     last_executed := Some now;
     execution_count := execution_count c + 1;
     success_count := success_count c + (if ok then 1 else 0);
     error_count := error_count c + (if ok then 0 else 1) |}.

(** Whether the sums of the UPDATE stay within the INTEGER range. *)
Definition stats_fit (ok : bool) (c : ConnectionRow) : bool :=
  fits_int4 (execution_count c + 1)
  && fits_int4 (success_count c + (if ok then 1 else 0))
  && fits_int4 (error_count c + (if ok then 0 else 1)).

(** [... WHERE id = $3].  The server refuses the statement when a sum
    leaves the INTEGER range; the query then rejects and the row is as it
    was. *)
Definition update_stats (id : string) (ok : bool) : M Db unit :=
  let* now := date_now in
  let* db := get_store in
  match connections db !! id with
  | Some c =>
      if stats_fit ok c
      then put_store {| connections :=
                          alter (bump_stats ok now) id (connections db);
                        execution_logs := execution_logs db |}
      else throw (db_error "integer out of range")
  | None => ret tt
  end.

Definition execute_message (ok : bool) : string :=
  "Connection executed " ++ (if ok then "successfully" else "with errors").

(** The route, after the row has been found. *)
Definition execute_connection (id : string) (connection : ConnectionRow)
    : M Db http_response :=
  let* startTime := date_now in
  let* sourceResponse :=
    fetch (source_url connection) (source_opts connection) in
  if negb (res_ok sourceResponse) then
    let failure :=
      "Source request failed: " ++ pretty (res_status sourceResponse) in
    let* now := date_now in
    insert_log {| connection_id := id; executed_at := now; success := false;
                  source_response := None; dest_response := None;
                  error_message := Some failure;
                  execution_time_ms := now - startTime |} true ;;;
    ret (express_json 500 (VObj [("error", VStr failure)]))
  else
    let* sourceData := json sourceResponse in
    let* destData := lift (map_source sourceData connection) in
    let* destResponse :=
      fetch (dest_url connection) (dest_opts connection destData) in
    let* now := date_now in
    let executionTime := now - startTime in
    let ok := res_ok destResponse in
    insert_log {| connection_id := id; executed_at := now; success := ok;
                  source_response := stringify sourceData;
                  dest_response :=
                    if ok then Some (res_text destResponse) else None;
                  error_message := None;
                  execution_time_ms := executionTime |}
      (negb ok || body_is_json destResponse) ;;;
    update_stats id ok ;;;
    ret (express_json 200
           (VObj [("message", VStr (execute_message ok));
                  ("execution_time_ms", VNum executionTime);
                  ("success", VBool ok)])).

Definition execute (id : string) : M Db http_response :=
  try_catch
    (let* db := get_store in
     match connections db !! id with
     | None =>
         ret (express_json 404 (VObj [("error", VStr "Connection not found")]))
     | Some connection => execute_connection id connection
     end)
    (fun e => ret (express_json 500 (VObj [("error", VStr (err_message e))]))).


End SqlExecute.

(** ** The serverless handler [backend/api/connections/execute.js] *)

(** The earlier [backend/lib/httpClient.js] that this handler imports. *)
Module MergedHttpClient.
Import Js Eff.

(** [method === 'POST' || method === 'PUT' || method === 'PATCH']. *)
Definition is_write_method (method : value) : bool :=
  match method with
  | VStr m => String.eqb m "POST" || String.eqb m "PUT" || String.eqb m "PATCH"
  | _ => false
  end.

Definition build_options (spec : request_spec) : fetch_opts :=
  let method := HttpClient.or_default (rq_method spec) (VStr "GET") in
  let headers := HttpClient.or_default (rq_headers spec) (VObj []) in
  let data := HttpClient.or_default (rq_data spec) VNull in
  {| fo_method := method;
     fo_headers :=
       VObj (spread [("Content-Type", VStr "application/json")]
                    (own_enumerable headers));
     fo_body :=
       if truthy data && is_write_method method then stringify data
       else None;
     fo_signal := false;
     fo_timeout := Some 10000 |}.

(** [contentType && contentType.includes('application/json')]. *)
Definition is_json (r : response) : bool :=
  match HttpClient.headers_get r "content-type" with
  | Some ct => negb (String.eqb ct "") && includes "application/json" ct
  | None => false
  end.

(** The object [request] resolves to:
    [{ status, statusText, headers, body, data: body }]. *)
Definition result_object (r : response) (body : value) : value :=
  VObj [("status", VNum (res_status r));
        ("statusText", VStr (res_statusText r));
        ("headers", VObj (HttpClient.headers_object r));
        ("body", body);
        ("data", body)].

Definition http_error (r : response) (body : value) : js_error :=
  {| err_name := "Error";
     err_message :=
       "HTTP " ++ pretty (res_status r) ++ ": " ++ res_statusText r;
     err_status := Some (res_status r);
     err_body := Some body |}.

Definition request {S} (spec : request_spec) : M S value :=
  try_catch
    (let* res := fetch (rq_url spec) (build_options spec) in
     let* body := (if is_json res then json res
                   else ret (VStr (res_text res))) in
     if negb (res_ok res) then throw (http_error res body)
     else ret (result_object res body))
    (fun error =>
       throw (mkError "Error" ("Request failed: " ++ err_message error))).

End MergedHttpClient.

Module SheetsExecute.
Import Js Eff.

(** [connection.stats]. *)
Record Stats : Type := {
  executionCount : Z;
  successCount : Z;
  errorCount : Z;
  uptime : Z
}.

(** The connection object that [create.js] stores. *)
Record Connection : Type := {
  conn_id : string;
  conn_name : string;
  sourceUrl : string;
  destUrl : string;
  mapping : value;
  authSource : value;
  authDest : value;
  stats : Stats
}.

(** Modelled from the spec: the [GoogleSheets] class of
    [backend/lib/googleSheets.js], which is not among the sources.  It is
    the spec's Connection Store ([get(id) -> Connection?],
    [update(id, patch) -> Connection?]) and Logger ([append(entry)]): a map
    from ids to connections and an append-only list of entries. *)
Record Sheets : Type := {
  sheet_connections : gmap string Connection;
  sheet_log : list value
}.

(** Modelled from the spec: [sheets.getConnection(id)]. *)
Definition getConnection (connectionId : value)
    : M Sheets (option Connection) :=
  let* sh := get_store in
  ret (match connectionId with
       | VStr id => sheet_connections sh !! id
       | _ => None
       end).

(** Modelled from the spec: [sheets.updateConnection(id, connection)]. *)
Definition updateConnection (connectionId : value) (c : Connection)
    : M Sheets unit :=
  let* sh := get_store in
  put_store
    {| sheet_connections :=
         match connectionId with
         | VStr id => <[id := c]> (sheet_connections sh)
         | _ => sheet_connections sh
         end;
       sheet_log := sheet_log sh |}.

(** Modelled from the spec: [sheets.logEvent(entry)]. *)
Definition logEvent (entry : value) : M Sheets unit :=
  let* sh := get_store in
  put_store {| sheet_connections := sheet_connections sh;
               sheet_log := (sheet_log sh ++ [entry])%list |}.

(** [req]: its [method] and its parsed [body]. *)
Record api_request : Type := {
  api_method : string;
  api_body : value
}.

(** [res.status(code).json(v)]. *)
Definition respond (code : Z) (v : value) : http_response :=
  {| statusCode := code;
     headers := [("Content-Type", "application/json; charset=utf-8")];
     body := stringify v |}.

(** [new Date().toISOString()]. *)
Definition now_iso : M Sheets value :=
  let* now := date_now in ret (VStr (toISOString now)).

(** [{ Authorization: `Bearer ${process.env[name]}` }]. *)
Definition bearer (env : string -> value) (name : value) : (string * value) :=
  ("Authorization", VStr ("Bearer " ++ to_string (env (to_string name)))).

(** [x?.[k] || d]. *)
Definition optional_or (x : value) (k : string) (d : value) : value :=
  match x with
  | VUndefined | VNull => d
  | _ => let v := get_property x k in if truthy v then v else d
  end.

Definition source_request (env : string -> value) (connection : Connection)
    (sourceData : value) : request_spec :=
  {| rq_url := sourceUrl connection;
     rq_method := optional_or sourceData "method" (VStr "GET");
     rq_headers :=
       if truthy (authSource connection)
       then VObj [bearer env (authSource connection)]
       else VObj [];
     rq_data := optional_or sourceData "body" (VObj []) |}.

Definition dest_request (env : string -> value) (connection : Connection)
    (mappedData : value) : request_spec :=
  {| rq_url := destUrl connection;
     rq_method := VStr "POST";
     rq_headers :=
       if truthy (authDest connection)
       then VObj [bearer env (authDest connection);
                  ("Content-Type", VStr "application/json")]
       else VObj [("Content-Type", VStr "application/json")];
     rq_data := mappedData |}.

Definition failure_entry (connectionId : value) (event : string)
    (timestamp : value) (error : js_error) : list (string * value) :=
  [("connectionId", connectionId); ("event", VStr event);
   ("timestamp", timestamp); ("status", VStr "error");
   ("error", VStr (err_message error))].

Definition failed (code : Z) (message : string) : http_response :=
  respond code (VObj [("success", VBool false); ("error", VStr message)]).

(** [connection.stats.executionCount += 1;
     connection.stats.successCount += 1]. *)
Definition count_success (c : Connection) : Connection :=
  {| conn_id := conn_id c; conn_name := conn_name c;
     sourceUrl := sourceUrl c; destUrl := destUrl c;
     mapping := mapping c; authSource := authSource c;
     authDest := authDest c;
     stats := {| executionCount := executionCount (stats c) + 1;
                 successCount := successCount (stats c) + 1;
                 errorCount := errorCount (stats c);
                 uptime := uptime (stats c) |} |}.

(** [JSON.stringify(mappedData).length]. *)
Definition data_size (mappedData : value) : M Sheets value :=
  match stringify mappedData with
  | Some text => ret (VNum (Z.of_nat (String.length text)))
  | None =>
      throw (mkError "TypeError"
               "Cannot read properties of undefined (reading 'length')")
  end.

(** Steps 3 and 4, once the data is mapped. *)
Definition post_and_record (env : string -> value) (connectionId : value)
    (connection : Connection) (startTime : Z) (sourceResponse : value)
    (mappedData : value) : M Sheets http_response :=
  let* destResponse :=
    try_catch
      (let* r := MergedHttpClient.request
                   (dest_request env connection mappedData) in
       ret (inl r))
      (fun error => ret (inr error)) in
  match destResponse with
  | inr error =>
      let* timestamp := now_iso in
      logEvent (VObj (failure_entry connectionId "DESTINATION_FAILED"
                        timestamp error)) ;;;
      ret (failed 500 ("Destination endpoint failed: " ++ err_message error))
  | inl destResponse =>
      let* now := date_now in
      let duration := now - startTime in
      let* timestamp := now_iso in
      let* dataSize := data_size mappedData in
      logEvent
        (VObj [("connectionId", connectionId);
               ("event", VStr "EXECUTION_SUCCESS");
               ("timestamp", timestamp); ("status", VStr "success");
               ("duration", VNum duration);
               ("sourceStatus", get_property sourceResponse "status");
               ("destStatus", get_property destResponse "status");
               ("dataSize", dataSize)]) ;;;
      updateConnection connectionId (count_success connection) ;;;
      ret (respond 200
             (VObj [("success", VBool true);
                    ("data",
                     VObj [("connectionId", connectionId);
                           ("status", VStr "executed");
                           ("duration", VStr (pretty duration ++ "ms"));
                           ("sourceStatus",
                            get_property sourceResponse "status");
                           ("destStatus", get_property destResponse "status");
                           ("message",
                            VStr "Data successfully transformed and sent")])]))
  end.

(** Steps 1 and 2, once the connection is found. *)
Definition fetch_and_map (env : string -> value) (connectionId sourceData : value)
    (connection : Connection) (startTime : Z) : M Sheets http_response :=
  let* sourceResponse :=
    try_catch
      (let* r := MergedHttpClient.request
                   (source_request env connection sourceData) in
       ret (inl r))
      (fun error => ret (inr error)) in
  match sourceResponse with
  | inr error =>
      let* timestamp := now_iso in
      let* now := date_now in
      logEvent
        (VObj (failure_entry connectionId "EXECUTION_FAILED" timestamp error
               ++ [("duration", VNum (now - startTime))])%list) ;;;
      ret (failed 500 ("Source endpoint failed: " ++ err_message error))
  | inl sourceResponse =>
      match MergedDataMapper.transform sourceResponse (mapping connection) with
      | Throw error =>
          let* timestamp := now_iso in
          logEvent (VObj (failure_entry connectionId "MAPPING_FAILED"
                            timestamp error)) ;;;
          ret (failed 400 ("Data mapping failed: " ++ err_message error))
      | Ok mappedData =>
          post_and_record env connectionId connection startTime
            sourceResponse mappedData
      end
  end.

Definition handler (env : string -> value) (req : api_request)
    : M Sheets http_response :=
  if negb (String.eqb (api_method req) "POST")
  then ret (respond 405 (VObj [("error", VStr "Method not allowed")]))
  else
    try_catch
      (match api_body req with
       | VUndefined | VNull =>
           throw (mkError "TypeError"
                    "Cannot destructure property 'connectionId'")
       | reqBody =>
           let connectionId := get_property reqBody "connectionId" in
           let sourceData := get_property reqBody "sourceData" in
           if negb (truthy connectionId)
           then ret (respond 400
                       (VObj [("error", VStr "Connection ID required")]))
           else
             let* startTime := date_now in
             let* connection := getConnection connectionId in
             match connection with
             | None =>
                 ret (respond 404
                        (VObj [("error", VStr "Connection not found")]))
             | Some connection =>
                 fetch_and_map env connectionId sourceData connection
                   startTime
             end
       end)
      (fun error => ret (failed 500 (err_message error))).

End SheetsExecute.

(** ** backend/lib/validator.js, [validateConnection] *)

Module ConnectionValidator.
Import Js.

(** [Array.isArray(v)]. *)
Definition is_array (v : value) : bool :=
  match v with VArr _ => true | _ => false end.

(** [if (!conn[field]) errors.push(message)]. *)
Definition required (conn : value) (field message : string) : list string :=
  if negb (truthy (get_property conn field)) then [message] else [].

Definition validateConnection (conn : value) : list string :=
  if negb (truthy conn) then ["Connection object required"]
  else
    (required conn "id" "id is required"
     ++ required conn "name" "name is required"
     ++ required conn "sourceUrl" "sourceUrl is required"
     ++ required conn "destinationUrl" "destinationUrl is required"
     ++ (let mappings := get_property conn "mappings" in
         if truthy mappings
            && negb (is_array mappings || typeof_object mappings)
         then ["mappings must be an array or object"] else []))%list.

End ConnectionValidator.

(** ** backend/lib/storage.js, [listLogs] *)

Module StorageQueries.
Import Js.

(** The [filter] argument: [connectionId] is a string or left out, [limit]
    an integer or left out. *)
Record log_filter : Type := {
  filter_connectionId : option string;
  filter_limit : option Z
}.

(** [l => !connectionId || l.connectionId === connectionId]. *)
Definition matches (connectionId : option string) (l : obj) : bool :=
  match connectionId with
  | None => true
  | Some id =>
      negb (nonempty id)
      || match get_property (VObj l) "connectionId" with
         | VStr id' => String.eqb id' id
         | _ => false
         end
  end.

(** [items.slice(0, limit)]: a negative [limit] counts from the end. *)
Definition slice_to {A : Type} (limit : Z) (items : list A) : list A :=
  if limit <? 0
  then take (Z.to_nat (Z.of_nat (length items) + limit)) items
  else take (Z.to_nat limit) items.

Definition listLogs (filter : log_filter) (st : storage) : list obj :=
  let connectionId := filter_connectionId filter in
  let limit := default 50 (filter_limit filter) in
  slice_to limit (List.filter (matches connectionId) (logs st)).

End StorageQueries.

(** ** backend/api/connections-[id]-test.js *)

Module TestHandler.
Import Js Eff.

(** [await http.request({ url: conn.sourceUrl, method: 'GET' })
       .catch(e => ({ error: e.message }))], then the [source] entry of the
    result. *)
Definition source_check (conn : obj) : M storage value :=
  let* sourceCheck :=
    try_catch
      (let* out := HttpClient.request
                     {| rq_url := to_string (get_property (VObj conn) "sourceUrl");
                        rq_method := VStr "GET";
                        rq_headers := VUndefined;
                        rq_data := VUndefined |} in
       ret (inl out))
      (fun e => ret (inr (err_message e))) in
  ret (match sourceCheck with
       | inl out =>
           if truthy (VNum (hr_status out))
           then VObj [("ok", VBool true); ("status", VNum (hr_status out))]
           else VObj [("ok", VBool false); ("error", VUndefined)]
       | inr message => VObj [("ok", VBool false); ("error", VStr message)]
       end).

(** [(result.source.ok && result.destination.healthy) ? 'ok' : 'fail']. *)
Definition test_status (source destination : value) : string :=
  if truthy (get_property source "ok")
     && truthy (get_property destination "healthy")
  then "ok" else "fail".

(** The handler with [req_id] the capture group of
    [/connections\/(.+?)\/test/]; the request body is not read. *)
Definition handler (req : http_request) : M storage http_response :=
  if negb (String.eqb (default "GET" (req_method req)) "POST")
  then ret {| statusCode := 405; headers := [("Allow", "POST")];
              body := None |}
  else
    let* conn := (match req_id req with
                  | Some id => Storage.getConnectionM id
                  | None => ret None
                  end) in
    match conn with
    | None =>
        ret (json_response 404 (VObj [("error", VStr "Connection not found")]))
    | Some conn =>
        try_catch
          (let* source := source_check conn in
           let* destCheck :=
             HttpClient.healthCheck
               (to_string (get_property (VObj conn) "destinationUrl")) in
           let result := VObj [("source", source); ("destination", destCheck)] in
           Storage.logEventM
             (VObj [("event", VStr "test");
                    ("connectionId", ExecuteHandler.id_value (req_id req));
                    ("status", VStr (test_status source destCheck))]) ;;;
           ret (json_response 200 result))
          (fun e => ret (json_response 500
                           (VObj [("error", VStr (err_message e))])))
    end.

End TestHandler.

(** ** The handler for [GET /api/connections/:id/health] *)

Module HealthHandler.
Import Js Eff.

(** [await http.healthCheck(url).catch(e => ({ healthy: false,
    error: e.message }))]. *)
Definition probe (url : value) : M storage value :=
  try_catch (HttpClient.healthCheck (to_string url))
    (fun e => ret (VObj [("healthy", VBool false);
                         ("error", VStr (err_message e))])).

(** The handler with [req_id] the capture group of
    [/connections\/(.+?)\/health/]. *)
Definition handler (req : http_request) : M storage http_response :=
  if negb (String.eqb (default "GET" (req_method req)) "GET")
  then ret {| statusCode := 405; headers := [("Allow", "GET")];
              body := None |}
  else
    let* conn := (match req_id req with
                  | Some id => Storage.getConnectionM id
                  | None => ret None
                  end) in
    match conn with
    | None =>
        ret (json_response 404 (VObj [("error", VStr "Connection not found")]))
    | Some conn =>
        let* source := probe (get_property (VObj conn) "sourceUrl") in
        let* dest := probe (get_property (VObj conn) "destinationUrl") in
        ret (json_response 200
               (VObj [("connectionId", ExecuteHandler.id_value (req_id req));
                      ("source", source); ("destination", dest)]))
    end.

End HealthHandler.

(** ** The Express routes [GET /api/connections/:id/test] and
    [DELETE /api/connections/:id] *)

Module SqlRoutes.
Import Js Eff SqlExecute.

(** One entry of [tests]: [{ endpoint, status, ok }] when the request was
    answered, [{ endpoint, error }] when it threw. *)
Definition endpoint_test (endpoint url : string) (opts : fetch_opts)
    : M Db value :=
  try_catch
    (let* r := fetch url opts in
     ret (VObj [("endpoint", VStr endpoint); ("status", VNum (res_status r));
                ("ok", VBool (res_ok r))]))
    (fun error =>
       ret (VObj [("endpoint", VStr endpoint);
                  ("error", VStr (err_message error))])).

Definition test_connection (id : string) : M Db http_response :=
  try_catch
    (let* db := get_store in
     match connections db !! id with
     | None =>
         ret (express_json 404 (VObj [("error", VStr "Connection not found")]))
     | Some connection =>
         let* source :=
           endpoint_test "source" (source_url connection)
             (source_opts connection) in
         let* destination :=
           endpoint_test "destination" (dest_url connection)
             (dest_opts connection (VObj [])) in
         ret (express_json 200
                (VObj [("connection_id", VStr id);
                       ("tests", VArr [source; destination])]))
     end)
    (fun e => ret (express_json 500 (VObj [("error", VStr (err_message e))]))).

(** [DELETE FROM execution_logs WHERE connection_id = $1], then
    [DELETE FROM connections WHERE id = $1]. *)
Definition delete_rows (id : string) (db : Db) : Db :=
  {| connections := delete id (connections db);
     execution_logs :=
       List.filter (fun row => negb (String.eqb (connection_id row) id))
         (execution_logs db) |}.

Definition delete_connection (id : string) : M Db http_response :=
  try_catch
    (let* db := get_store in
     match connections db !! id with
     | None =>
         ret (express_json 404 (VObj [("error", VStr "Connection not found")]))
     | Some connection =>
         put_store (delete_rows id db) ;;;
         ret (express_json 200
                (VObj [("message",
                        VStr ("Connection '" ++ row_name connection
                              ++ "' deleted successfully"))]))
     end)
    (fun e => ret (express_json 500 (VObj [("error", VStr (err_message e))]))).

End SqlRoutes.

(** ** Vocabulary of the statements *)












(** How the [fetch] of the runtime fails: with [TypeError: fetch failed]
    when no connection can be made, and with an [AbortError] when its
    signal aborts first. *)
Definition fetch_failed : js_error := mkError "TypeError" "fetch failed".

Definition aborted : js_error :=
  mkError "AbortError" "This operation was aborted".

(** A probe result that reports the answer [r]: its [status], [healthy]
    exactly for a 2xx, and no [error]. *)
Definition probe_reports (r : response) (result : obj) : Prop :=
  Js.obj_get result "status" = Some (VNum (res_status r))
  ∧ Js.obj_get result "healthy"
    = Some (VBool ((200 <=? res_status r) && (res_status r <=? 299)))
  ∧ Js.obj_get result "error" = None.

(** A host is unreachable when every [fetch] addressed to it fails in one
    of these two ways. *)
Definition unreachable {S : Type} (w : World S) (url : string) : Prop :=
  ∀ k opts, ∃ elapsed,
    w_net w k url opts = (Rejected fetch_failed, elapsed)
    ∨ w_net w k url opts = (Rejected aborted, elapsed).

(** The value a patch or a log entry gives property [k]: that of its last
    own property of that name. *)
Definition written (props : obj) (k : string) : option value :=
  snd <$> last (List.filter (fun kv => String.eqb (fst kv) k) props).

(** What [HttpClient.request] makes of the way its [fetch] settles. *)
Definition request_result (settled : fetch_outcome) : outcome http_result :=
  match settled with
  | Rejected e =>
      Throw (if String.eqb (err_name e) "AbortError"
             then mkError "Error" "Request timeout" else e)
  | Fulfilled res =>
      let finish body :=
        if res_ok res
        then Ok {| hr_status := res_status res;
                   hr_headers := HttpClient.headers_object res;
                   hr_body := body |}
        else Throw (HttpClient.http_error res body) in
      if Js.includes "application/json" (HttpClient.content_type res)
      then match res_json res with
           | Some v => finish v
           | None => Throw (mkError "SyntaxError" "Unexpected token in JSON")
           end
      else finish (VStr (res_text res))
  end.



(** How [request] ends when [call] is the [k]-th [fetch] of the run. *)
Definition call_result {S : Type} (w : World S) (k : nat)
    (call : string * fetch_opts) : outcome http_result :=
  request_result (w_net w k call.1 call.2).1.



(** Two rows of [connections] that differ at most in their statistics. *)
Definition same_endpoints (a b : SqlExecute.ConnectionRow) : Prop :=
  SqlExecute.source_url a = SqlExecute.source_url b
  ∧ SqlExecute.source_opts a = SqlExecute.source_opts b
  ∧ SqlExecute.dest_url a = SqlExecute.dest_url b
  ∧ (∀ d, SqlExecute.dest_opts a d = SqlExecute.dest_opts b d)
  ∧ SqlExecute.mapping_rules a = SqlExecute.mapping_rules b.

(** ** Sample worlds *)

(** A network on which every request fails the way Node's [fetch] does when
    no connection can be made. *)
Definition offline_net (k : nat) (url : string) (opts : fetch_opts)
    : fetch_outcome * Z :=
  (Rejected (mkError "TypeError" "fetch failed"), 3).

Definition offline_world : World unit :=
  {| w_net := offline_net; w_now := 1700000000000; w_trace := [];
     w_store := tt |}.

Definition sample_connection : obj :=
  [("id", VStr "c1"); ("name", VStr "Orders to CRM");
   ("sourceUrl", VStr "https://source.example/orders");
   ("destinationUrl", VStr "https://dest.example/hook");
   ("stats", VObj [("executionCount", VNum 3); ("successCount", VNum 2);
                   ("errorCount", VNum 1)])].

Definition sample_storage : storage :=
  {| connections := {[ "c1" := sample_connection ]}; logs := [] |}.

Definition ok_response : response :=
  {| res_status := 200; res_statusText := "OK";
     res_headers := [("content-type", "application/json")];
     res_json := Some (VObj [("received", VBool true)]);
     res_text := "" |}.

(** The first request of the run cannot connect, every later one is
    answered with 200. *)
Definition first_fails_net (k : nat) (url : string) (opts : fetch_opts)
    : fetch_outcome * Z :=
  if (k =? 0)%nat then (Rejected (mkError "TypeError" "fetch failed"), 5)
  else (Fulfilled ok_response, 20).

Definition batch_world : World storage :=
  {| w_net := first_fails_net; w_now := 1700000000000; w_trace := [];
     w_store := sample_storage |}.


Definition sample_row : SqlExecute.ConnectionRow :=
  {| SqlExecute.row_id := "c1";
     SqlExecute.row_name := "Orders to CRM";
     SqlExecute.source_url := "https://source.example/orders";
     SqlExecute.source_method := "GET";
     SqlExecute.source_headers := VNull;
     SqlExecute.dest_url := "https://dest.example/hook";
     SqlExecute.dest_method := "POST";
     SqlExecute.dest_headers := VNull;
     SqlExecute.mapping_rules := Some [];
     SqlExecute.last_executed := None;
     SqlExecute.execution_count := 3;
     SqlExecute.success_count := 2;
     SqlExecute.error_count := 1 |}.

Definition sample_db : SqlExecute.Db :=
  {| SqlExecute.connections := {[ "c1" := sample_row ]};
     SqlExecute.execution_logs := [] |}.

Definition status_response (status : Z) (text : string) : response :=
  {| res_status := status; res_statusText := text;
     res_headers := [("content-type", "application/json")];
     res_json := Some (VObj [("order", VNum 17)]);
     res_text := "" |}.

(** Every request is answered with 503. *)
Definition source_down_net (k : nat) (url : string) (opts : fetch_opts)
    : fetch_outcome * Z :=
  (Fulfilled (status_response 503 "Service Unavailable"), 9).

Definition source_down_world : World SqlExecute.Db :=
  {| w_net := source_down_net; w_now := 1700000000000; w_trace := [];
     w_store := sample_db |}.

(** The source answers 200 with JSON, every other host answers 500. *)
Definition dest_500_net (k : nat) (url : string) (opts : fetch_opts)
    : fetch_outcome * Z :=
  if String.eqb url "https://source.example/orders"
  then (Fulfilled (status_response 200 "OK"), 12)
  else (Fulfilled (status_response 500 "Internal Server Error"), 8).


Definition sample_sheet_connection : SheetsExecute.Connection :=
  {| SheetsExecute.conn_id := "c1";
     SheetsExecute.conn_name := "Orders to CRM";
     SheetsExecute.sourceUrl := "https://source.example/orders";
     SheetsExecute.destUrl := "https://dest.example/hook";
     SheetsExecute.mapping := VObj [];
     SheetsExecute.authSource := VNull;
     SheetsExecute.authDest := VNull;
     SheetsExecute.stats :=
       {| SheetsExecute.executionCount := 3;
          SheetsExecute.successCount := 2;
          SheetsExecute.errorCount := 1;
          SheetsExecute.uptime := 100 |} |}.

Definition sample_sheets : SheetsExecute.Sheets :=
  {| SheetsExecute.sheet_connections := {[ "c1" := sample_sheet_connection ]};
     SheetsExecute.sheet_log := [] |}.

Definition dest_500_sheets_world : World SheetsExecute.Sheets :=
  {| w_net := dest_500_net; w_now := 1700000000000; w_trace := [];
     w_store := sample_sheets |}.

Definition no_env (name : string) : value := VUndefined.


(** [POST] with body [{ connectionId: "c1" }]. *)
Definition sample_api_request : SheetsExecute.api_request :=
  {| SheetsExecute.api_method := "POST";
     SheetsExecute.api_body := VObj [("connectionId", VStr "c1")] |}.

(** ** Vocabulary of the further statements *)

(** A key that a dotted path can name: not empty and without a dot. *)
Fixpoint has_dot (k : string) : bool :=
  match k with
  | EmptyString => false
  | String c k' => Ascii.eqb c "."%char || has_dot k'
  end.

Definition is_segment (k : string) : bool := Js.nonempty k && negb (has_dot k).

(** The path expression that names the keys [keys] in turn. *)
Definition path_of (keys : list string) : string := "$." ++ Js.join "." keys.


(** A network on which every request is answered with 200 and JSON. *)
Definition online_net (k : nat) (url : string) (opts : fetch_opts)
    : fetch_outcome * Z :=
  (Fulfilled ok_response, 20).

Definition online_world : World unit :=
  {| w_net := online_net; w_now := 1700000000000; w_trace := [];
     w_store := tt |}.


Definition sample_get : request_spec :=
  {| rq_url := "https://api.example.com/data"; rq_method := VStr "GET";
     rq_headers := VUndefined; rq_data := VUndefined |}.


(** The request the test handler sends to the source of [conn]. *)
Definition source_call (conn : obj) : string * fetch_opts :=
  let rq := {| rq_url := Js.to_string (Js.get_property (VObj conn) "sourceUrl");
               rq_method := VStr "GET"; rq_headers := VUndefined;
               rq_data := VUndefined |} in
  (rq_url rq, HttpClient.build_opts rq).

(** A batch request whose [records] is not an array. *)
Definition malformed_batch_request : http_request :=
  {| req_method := Some "POST"; req_id := Some "c1";
     req_json := Some (VObj [("records", VStr "none")]) |}.

(** [POST /api/connections/c1/test]. *)
Definition sample_test_request : http_request :=
  {| req_method := Some "POST"; req_id := Some "c1"; req_json := None |}.

(** Every row of [execution_logs] belongs to a stored connection (the
    foreign key [execution_logs.connection_id]). *)
Definition db_consistent (db : SqlExecute.Db) : Prop :=
  Forall (fun row =>
            is_Some (SqlExecute.connections db !! SqlExecute.connection_id row))
    (SqlExecute.execution_logs db).

(** The executions of a connection that its counters do not classify. *)
Definition unclassified (row : SqlExecute.ConnectionRow) : Z :=
  SqlExecute.execution_count row - SqlExecute.success_count row
  - SqlExecute.error_count row.

(** A field that rule [rule] of the SQL-backed route writes from
    [sourceData]: the name is the rule's [dest_field], the value what its
    [source_path] selects. *)
Definition written_by (sourceData : value) (rule : value) (k : string)
    (x : value) : Prop :=
  ∃ path,
    Js.get_property rule "source_path" = VStr path
    ∧ Js.to_string (Js.get_property rule "dest_field") = k
    ∧ x = SqlExecute.getNestedValue sourceData path.

Definition sample_rule_row : SqlExecute.ConnectionRow :=
  {| SqlExecute.row_id := "c2";
     SqlExecute.row_name := "Orders, mapped";
     SqlExecute.source_url := "https://source.example/orders";
     SqlExecute.source_method := "GET";
     SqlExecute.source_headers := VNull;
     SqlExecute.dest_url := "https://dest.example/hook";
     SqlExecute.dest_method := "POST";
     SqlExecute.dest_headers := VNull;
     SqlExecute.mapping_rules :=
       Some [VObj [("source_path", VStr "order"); ("dest_field", VStr "id")];
             VObj [("source_path", VStr "missing");
                   ("dest_field", VStr "note")]];
     SqlExecute.last_executed := None;
     SqlExecute.execution_count := 0;
     SqlExecute.success_count := 0;
     SqlExecute.error_count := 0 |}.

(** A database with one connection and one log row of it. *)
Definition logged_db : SqlExecute.Db :=
  {| SqlExecute.connections := {[ "c1" := sample_row ]};
     SqlExecute.execution_logs :=
       [{| SqlExecute.connection_id := "c1";
           SqlExecute.executed_at := 1699999999000;
           SqlExecute.success := true;
           SqlExecute.source_response := None;
           SqlExecute.dest_response := None;
           SqlExecute.error_message := None;
           SqlExecute.execution_time_ms := 31 |}] |}.

Definition logged_world : World SqlExecute.Db :=
  {| w_net := dest_500_net; w_now := 1700000000000; w_trace := [];
     w_store := logged_db |}.

(** What the test route reports for an endpoint whose request settled
    as [settled]. *)
Definition reported (endpoint : string) (settled : fetch_outcome)
    (entry : value) : Prop :=
  Js.get_property entry "endpoint" = VStr endpoint
  ∧ match settled with
    | Fulfilled r =>
        Js.get_property entry "status" = VNum (res_status r)
        ∧ Js.get_property entry "ok" = VBool (res_ok r)
        ∧ Js.get_property entry "error" = VUndefined
    | Rejected e =>
        Js.get_property entry "error" = VStr (err_message e)
        ∧ Js.get_property entry "ok" = VUndefined
    end.

(** The serverless handler's store on a network whose every answer is
    503. *)
Definition source_down_sheets_world : World SheetsExecute.Sheets :=
  {| w_net := source_down_net; w_now := 1700000000000; w_trace := [];
     w_store := sample_sheets |}.

(** The sample store after a [test] event of [c1] and then one of [c2]. *)
Definition two_logs_storage : storage :=
  Storage.logEvent 1700000000000
    (VObj [("event", VStr "test"); ("connectionId", VStr "c2")])
    (Storage.logEvent 1700000000000
       (VObj [("event", VStr "test"); ("connectionId", VStr "c1")])
       sample_storage).

(** [{ connectionId: "c1", limit: 10 }]. *)
Definition c1_filter : StorageQueries.log_filter :=
  {| StorageQueries.filter_connectionId := Some "c1";
     StorageQueries.filter_limit := Some 10 |}.

(** * Properties *)

(** ** Objects as property lists *)

Section ObjectLemmas.
Import Js.

Lemma has_own_true (o : obj) (k : string) :
  has_own o k = true ↔ is_Some (obj_get o k).
Proof. unfold has_own. by rewrite bool_decide_eq_true. Qed.

Lemma has_own_false (o : obj) (k : string) :
  has_own o k = false ↔ obj_get o k = None.
Proof.
  unfold has_own. rewrite bool_decide_eq_false.
  by rewrite <- eq_None_not_Some.
Qed.

Lemma has_own_keys (o : obj) (k : string) :
  has_own o k = true ↔ k ∈ obj_keys o.
Proof.
  rewrite has_own_true. unfold obj_keys.
  induction o as [|[k' v'] o IH]; simpl.
  - split; [by intros [? ?] | by intros ?%elem_of_nil].
  - destruct (String.eqb k' k) eqn:E.
    + apply String.eqb_eq in E. subst. split; [left | by eexists].
    + apply String.eqb_neq in E. rewrite IH. split; [by right|].
      by intros [->|H]%elem_of_cons.
Qed.

Lemma obj_get_replace (o : obj) (k k' : string) (v : value) :
  obj_get (obj_replace o k v) k' =
  if String.eqb k k' && has_own o k then Some v else obj_get o k'.
Proof.
  induction o as [|[k0 v0] o IH]; simpl.
  - by rewrite andb_false_r.
  - unfold has_own in *. simpl.
    destruct (String.eqb k0 k) eqn:E; simpl.
    + apply String.eqb_eq in E. subst k0.
      rewrite andb_true_r. by destruct (String.eqb k k').
    + rewrite IH. destruct (String.eqb k k') eqn:E'; simpl; [|done].
      apply String.eqb_eq in E'. subst k'. rewrite E.
      by destruct (bool_decide _).
Qed.

Lemma obj_get_insert (o : obj) (k k' : string) (v : value) :
  has_own o k = false →
  obj_get (obj_insert o k v) k' =
  if String.eqb k k' then Some v else obj_get o k'.
Proof.
  rewrite has_own_false.
  induction o as [|[k0 v0] o IH]; simpl; intros Hown; [done|].
  destruct (String.eqb k0 k) eqn:E; [done|].
  destruct (goes_before k k0); simpl; [done|].
  rewrite (IH Hown). destruct (String.eqb k k') eqn:E'; [|done].
  apply String.eqb_eq in E'. subst k'. by rewrite E.
Qed.

Lemma obj_get_define (o : obj) (k k' : string) (v : value) :
  obj_get (obj_define o k v) k' =
  if String.eqb k k' then Some v else obj_get o k'.
Proof.
  unfold obj_define. destruct (has_own o k) eqn:Hown.
  - rewrite obj_get_replace, Hown. by rewrite andb_true_r.
  - by apply obj_get_insert.
Qed.

Lemma obj_get_define_eq (o : obj) (k : string) (v : value) :
  obj_get (obj_define o k v) k = Some v.
Proof. by rewrite obj_get_define, String.eqb_refl. Qed.

Lemma obj_get_define_ne (o : obj) (k k' : string) (v : value) :
  k ≠ k' → obj_get (obj_define o k v) k' = obj_get o k'.
Proof.
  intros Hne. rewrite obj_get_define.
  by apply String.eqb_neq in Hne as ->.
Qed.

(** An assignment writes the property it names, except that [__proto__]
    is written only where the object has it already. *)
Lemma obj_get_set (o : obj) (k k' : string) (v : value) :
  obj_get (obj_set o k v) k' =
  if String.eqb k "__proto__" && negb (has_own o k) then obj_get o k'
  else if String.eqb k k' then Some v else obj_get o k'.
Proof.
  unfold obj_set. destruct (_ && _); [done | apply obj_get_define].
Qed.

Lemma obj_get_set_inv (o : obj) (k k' : string) (v x : value) :
  obj_get (obj_set o k v) k' = Some x →
  obj_get o k' = Some x ∨ (k = k' ∧ x = v).
Proof.
  rewrite obj_get_set. destruct (_ && _); [by left|].
  destruct (String.eqb k k') eqn:E; [|by left].
  apply String.eqb_eq in E. intros [= <-]. by right.
Qed.


(** Defining a sequence of properties one after the other: a name reads as
    the last value defined under it, or as before when none was. *)
Lemma obj_get_fold_define {A : Type} (key : A → string) (val : A → value)
    (l : list A) (o : obj) (d : string) :
  obj_get (fold_left (fun acc a => obj_define acc (key a) (val a)) l o) d =
  match last (List.filter (fun a => String.eqb (key a) d) l) with
  | Some a => Some (val a)
  | None => obj_get o d
  end.
Proof.
  revert o. induction l as [|a l IH]; intros o; simpl; [done|].
  rewrite IH, obj_get_define.
  destruct (String.eqb (key a) d) eqn:E; simpl.
  - destruct (List.filter _ l) as [|b l'] eqn:F; simpl; [done|].
    destruct (last (b :: l')) eqn:L; [done|].
    by apply last_None in L.
  - done.
Qed.


(** *** The order of property names *)


Lemma obj_keys_replace (o : obj) (k : string) (v : value) :
  obj_keys (obj_replace o k v) = obj_keys o.
Proof.
  unfold obj_keys. induction o as [|[k' v'] o IH]; simpl; [done|].
  destruct (String.eqb k' k); simpl; [done | by rewrite IH].
Qed.

Lemma obj_keys_insert_elem (o : obj) (k : string) (v : value) (x : string) :
  x ∈ obj_keys (obj_insert o k v) ↔ x = k ∨ x ∈ obj_keys o.
Proof.
  unfold obj_keys. induction o as [|[k' v'] o IH]; simpl.
  - rewrite list_elem_of_singleton. split; [by left|].
    by intros [?|?%elem_of_nil].
  - destruct (goes_before k k'); simpl; [by rewrite elem_of_cons|].
    rewrite !elem_of_cons, IH. tauto.
Qed.

Lemma obj_keys_insert_NoDup (o : obj) (k : string) (v : value) :
  k ∉ obj_keys o → NoDup (obj_keys o) →
  NoDup (obj_keys (obj_insert o k v)).
Proof.
  unfold obj_keys. induction o as [|[k' v'] o IH]; simpl; intros Hk Hnd.
  - apply NoDup_singleton.
  - destruct (goes_before k k'); simpl; [by apply NoDup_cons|].
    apply NoDup_cons in Hnd as [Hk' Hnd]. apply NoDup_cons. split.
    + intros [->|H]%obj_keys_insert_elem; [|done].
      apply Hk. left.
    + apply IH; [|done]. intros H. apply Hk. by right.
Qed.




Lemma obj_keys_define_NoDup (o : obj) (k : string) (v : value) :
  NoDup (obj_keys o) → NoDup (obj_keys (obj_define o k v)).
Proof.
  intros Hnd. unfold obj_define.
  destruct (has_own o k) eqn:Hown.
  - by rewrite obj_keys_replace.
  - apply obj_keys_insert_NoDup; [|done].
    intros H%has_own_keys. congruence.
Qed.





End ObjectLemmas.

(** ** DataMapper *)

Section DataMapperProperties.
Import Js.

Lemma getValueByPath_string (o : value) (p : string) :
  p ≠ "" →
  DataMapper.getValueByPath o (VStr p) =
  if startsWith "$." p then DataMapper.walk (DataMapper.path_keys p) o
  else VStr p.
Proof.
  intros Hp. unfold DataMapper.getValueByPath. simpl.
  destruct (String.eqb p "") eqn:E.
  - apply String.eqb_eq in E. contradiction.
  - simpl. by destruct (startsWith "$." p).
Qed.

(** C3, counterexample: the empty string does not begin with ["$."], yet the
    current [getValueByPath] answers [undefined] for it, not the string. *)
Lemma getValueByPath_empty_string_undefined :
  startsWith "$." "" = false
  ∧ DataMapper.getValueByPath (VObj [("a", VNum 1)]) (VStr "") = VUndefined
  ∧ DataMapper.getValueByPath (VObj [("a", VNum 1)]) (VStr "") ≠ VStr "".
Proof. repeat split; [done..|discriminate]. Qed.

(** C3 (amended): a string that does not begin with ["$."] is a literal.
    [DataMapper.getValueByPath] returns it unchanged when it is not empty and
    returns [undefined] for the empty string (the [!path] guard); the earlier
    [merged_http2] version returns every such string unchanged, the empty
    one too. *)
Theorem getValueByPath_literal (v : value) (s : string) :
  startsWith "$." s = false →
  (s ≠ "" → DataMapper.getValueByPath v (VStr s) = VStr s)
  ∧ (s = "" → DataMapper.getValueByPath v (VStr s) = VUndefined)
  ∧ MergedDataMapper.getValueByPath v s = VStr s.
Proof.
  intros Hs. split; [|split].
  - intros Hne. rewrite getValueByPath_string by done. by rewrite Hs.
  - by intros ->.
  - unfold MergedDataMapper.getValueByPath. by rewrite Hs.
Qed.

Lemma getValueByPath_literal_witness :
  startsWith "$." "pending" = false
  ∧ DataMapper.getValueByPath (VObj [("a", VNum 1)]) (VStr "pending")
    = VStr "pending"
  ∧ MergedDataMapper.getValueByPath (VObj [("a", VNum 1)]) "pending"
    = VStr "pending".
Proof.
  split; [reflexivity|].
  destruct (getValueByPath_literal (VObj [("a", VNum 1)]) "pending")
    as (Hne & _ & Hm); [reflexivity|].
  split; [apply Hne; discriminate | exact Hm].
Defined.

(** C4: [transform] passes the source through for an absent mapping and for
    an empty keyed map, and so does the [merged_http2] version for an empty
    rule list; [DataMapper.transform] however hands an empty rule list to
    [transformAdvanced] and returns a fresh empty object instead of the
    source. *)
Theorem transform_empty_mapping :
  (∀ x, DataMapper.transform x MAbsent = Ok x)
  ∧ (∀ x, DataMapper.transform x (MKeyed []) = Ok x)
  ∧ (∀ x, MergedDataMapper.transform x VUndefined = Ok x
          ∧ MergedDataMapper.transform x (VObj []) = Ok x
          ∧ MergedDataMapper.transform x (VArr []) = Ok x)
  ∧ (∀ x, DataMapper.transform x (MRuleList []) = Ok (VObj []))
  ∧ DataMapper.transform (VObj [("a", VNum 1)]) (MRuleList [])
    ≠ Ok (VObj [("a", VNum 1)]).
Proof. repeat split; discriminate. Qed.







Lemma array_index_not_length (k : string) (i : nat) :
  array_index k = Some i → String.eqb k "length" = false.
Proof.
  intros H. destruct (String.eqb k "length") eqn:E; [|done].
  apply String.eqb_eq in E. subst k. discriminate.
Qed.

(** C8, counterexample: a numeric segment does select an element of an
    array. *)
Lemma getValueByPath_selects_array_element :
  DataMapper.getValueByPath
    (VObj [("items", VArr [VNum 10; VNum 20])]) (VStr "$.items.1")
  = VNum 20
  ∧ VNum 20 ≠ VUndefined.
Proof. split; [reflexivity | discriminate]. Qed.

Lemma merged_walk_from_undefined (keys : list string) :
  MergedDataMapper.walk keys VUndefined = VUndefined.
Proof. by destruct keys. Qed.

(** C8 (amended): a path expression that begins with ["$."] is resolved by
    walking its segments, and when the walk stands on an array and the next
    segment is the decimal spelling of an index below the array's length,
    resolution steps into that element and goes on with the rest of the
    path; for an index at or beyond the length it returns [undefined].
    This holds for [DataMapper] and for the [merged_http2] version. *)
Theorem walk_array_index (items : list value) (k : string) (i : nat)
    (rest : list string) :
  array_index k = Some i →
  (∀ e, items !! i = Some e →
        DataMapper.walk (k :: rest) (VArr items) = DataMapper.walk rest e
        ∧ MergedDataMapper.walk (k :: rest) (VArr items)
          = MergedDataMapper.walk rest e)
  ∧ (items !! i = None →
     DataMapper.walk (k :: rest) (VArr items) = VUndefined
     ∧ MergedDataMapper.walk (k :: rest) (VArr items) = VUndefined)
  ∧ (∀ o p, startsWith "$." p = true →
       DataMapper.getValueByPath o (VStr p)
       = DataMapper.walk (DataMapper.path_keys p) o
       ∧ MergedDataMapper.getValueByPath o p
         = MergedDataMapper.walk (MergedDataMapper.path_keys p) o).
Proof.
  intros Hk. pose proof (array_index_not_length k i Hk) as Hlen.
  split; [|split].
  - intros e He. pose proof (lookup_lt_Some _ _ _ He) as Hlt.
    simpl. rewrite Hlen, Hk. simpl.
    rewrite bool_decide_eq_true_2 by done.
    by rewrite He.
  - intros Hnone. pose proof Hnone as Hge. apply lookup_ge_None in Hge.
    simpl. rewrite Hlen, Hk. simpl.
    rewrite bool_decide_eq_false_2 by lia.
    rewrite Hnone. simpl. split; [done|].
    apply merged_walk_from_undefined.
  - intros o p Hp. unfold DataMapper.getValueByPath,
      MergedDataMapper.getValueByPath. rewrite Hp.
    destruct p as [|c p]; [done|]. done.
Qed.

Lemma walk_array_index_witness :
  array_index "1" = Some 1%nat
  ∧ DataMapper.walk ["1"; "id"] (VArr [VNum 10; VObj [("id", VNum 7)]])
    = DataMapper.walk ["id"] (VObj [("id", VNum 7)])
  ∧ MergedDataMapper.walk ["1"; "id"] (VArr [VNum 10; VObj [("id", VNum 7)]])
    = MergedDataMapper.walk ["id"] (VObj [("id", VNum 7)]).
Proof.
  split; [reflexivity|].
  destruct (walk_array_index [VNum 10; VObj [("id", VNum 7)]] "1" 1 ["id"])
    as [Hin _]; [reflexivity|].
  apply Hin. reflexivity.
Defined.

(** The examples of the specification. *)
Example resolve_nested_path :
  DataMapper.getValueByPath
    (VObj [("a", VObj [("b", VObj [("c", VNum 7)])])]) (VStr "$.a.b.c")
  = VNum 7
  ∧ DataMapper.getValueByPath
      (VObj [("a", VObj [("b", VObj [])])]) (VStr "$.a.b.c")
    = VUndefined
  ∧ DataMapper.path_keys "$.a..b" = DataMapper.path_keys "$.a.b".
Proof. repeat split. Qed.

Example transform_keyed_map :
  DataMapper.transform
    (VObj [("user", VObj [("name", VStr "Ava"); ("email", VStr "a@x.com")])])
    (MKeyed [("recipient_email", VStr "$.user.email");
             ("recipient_name", VStr "$.user.name")])
  = Ok (VObj [("recipient_email", VStr "a@x.com");
              ("recipient_name", VStr "Ava")]).
Proof. reflexivity. Qed.

Example array_index_spellings :
  array_index "0" = Some 0%nat ∧ array_index "12" = Some 12%nat
  ∧ array_index "01" = None ∧ array_index "" = None
  ∧ array_index "1a" = None ∧ array_index "-1" = None.
Proof. repeat split. Qed.

End DataMapperProperties.

(** ** Object spread *)

Section SpreadLemmas.
Import Js.

Lemma obj_get_spread (a b : obj) (k : string) :
  obj_get (spread a b) k =
  match written b k with
  | Some v => Some v
  | None => obj_get a k
  end.
Proof.
  unfold spread, written. rewrite obj_get_fold_define. by destruct (last _).
Qed.

Lemma written_None (props : obj) (k : string) :
  k ∉ obj_keys props → written props k = None.
Proof.
  unfold written, obj_keys. intros Hk.
  induction props as [|[k' v] props IH]; simpl; [done|].
  destruct (String.eqb k' k) eqn:E.
  - apply String.eqb_eq in E. subst. exfalso. apply Hk. simpl. left.
  - apply IH. intros H. apply Hk. simpl. by right.
Qed.

Lemma written_Some (props : obj) (k : string) :
  k ∈ obj_keys props → is_Some (written props k).
Proof.
  unfold written, obj_keys. intros Hk.
  induction props as [|[k' v] props IH]; simpl in *.
  - by apply elem_of_nil in Hk.
  - destruct (String.eqb k' k) eqn:E.
    + destruct (List.filter _ props) as [|x l] eqn:F; simpl; [by eexists|].
      destruct (last (x :: l)) eqn:L; [by eexists|].
      by apply last_None in L.
    + apply String.eqb_neq in E.
      apply elem_of_cons in Hk as [->|Hk]; [done | by apply IH].
Qed.

End SpreadLemmas.

(** ** HttpClient *)

Section HttpClientProperties.
Import Js Eff.
Context {S : Type}.

(** [request] issues exactly one [fetch], with the options [build_opts]
    computes. *)
Lemma request_trace (spec : request_spec) (w : World S) :
  w_trace (HttpClient.request spec w).2
  = (w_trace w ++ [(rq_url spec, HttpClient.build_opts spec)])%list.
Proof.
  unfold HttpClient.request, try_catch, bind, fetch, json, ret, throw.
  repeat (case_match; simplify_eq/=); done.
Qed.

Lemma is_write_method_spec (method : value) :
  HttpClient.is_write_method method = true
  ↔ ∃ m, method = VStr m ∧ m ∈ HttpClient.write_methods.
Proof.
  unfold HttpClient.is_write_method. split.
  - destruct method; try discriminate. intros H.
    apply existsb_exists in H as (m & Hin & Heq).
    apply String.eqb_eq in Heq. subst m.
    eexists. split; [done|]. by apply list_elem_of_In.
  - intros (m & -> & Hin). apply existsb_exists. exists m.
    split; [by apply list_elem_of_In | apply String.eqb_refl].
Qed.

Lemma build_opts_body (spec : request_spec) :
  fo_body (HttpClient.build_opts spec)
  = if truthy (rq_data spec) && HttpClient.is_write_method (rq_method spec)
    then stringify (rq_data spec) else None.
Proof.
  unfold HttpClient.build_opts, HttpClient.or_default. simpl.
  by destruct (rq_data spec), (rq_method spec).
Qed.

(** C7: the request [request] sends carries a body only when the method is
    one of POST, PUT, PATCH, DELETE and [data] is supplied (truthy); the
    body is then [JSON.stringify(data)].  With method GET or HEAD, or no
    method at all, there is no body. *)
Theorem request_body_only_for_write_methods (spec : request_spec) :
  (∀ w : World S,
      w_trace (HttpClient.request spec w).2
      = (w_trace w ++ [(rq_url spec, HttpClient.build_opts spec)])%list)
  ∧ (∀ b, fo_body (HttpClient.build_opts spec) = Some b →
          (∃ m, rq_method spec = VStr m ∧ m ∈ HttpClient.write_methods)
          ∧ truthy (rq_data spec) = true
          ∧ stringify (rq_data spec) = Some b)
  ∧ ((∃ m, rq_method spec = VStr m ∧ m ∈ HttpClient.write_methods) →
     truthy (rq_data spec) = true →
     fo_body (HttpClient.build_opts spec) = stringify (rq_data spec))
  ∧ (rq_method spec = VStr "GET" ∨ rq_method spec = VStr "HEAD"
     ∨ rq_method spec = VUndefined →
     fo_body (HttpClient.build_opts spec) = None).
Proof.
  split; [apply request_trace|].
  rewrite build_opts_body. split; [|split].
  - intros b Hb.
    destruct (truthy (rq_data spec)) eqn:Hd; [|discriminate].
    destruct (HttpClient.is_write_method (rq_method spec)) eqn:Hm;
      [|discriminate].
    split; [by apply is_write_method_spec | done].
  - intros Hm%is_write_method_spec Hd. by rewrite Hm, Hd.
  - intros [->|[->| ->]]; simpl; by rewrite andb_false_r.
Qed.

(** C6: [healthCheck] never throws.  It always returns an object with a
    boolean [healthy], a [latency] that is the time elapsed between its first
    and its last clock reading, and a [timestamp].  Its first request has
    the method HEAD and no body; only when that request is rejected does it
    send a second request to the same URL, without a method (which [fetch]
    takes as GET) and without a body.  When the second request is rejected
    too the result has [healthy: false] and as [error] the message of that
    rejection; so against an unreachable host, where [fetch] fails with
    [fetch failed] or with an abort, the result has [healthy: false] and a
    non-empty [error]. *)
Theorem healthCheck_never_throws (url : string) (w : World S) :
  ∃ result w' first,
    HttpClient.healthCheck url w = (Ok (VObj result), w')
    ∧ (∃ healthy, obj_get result "healthy" = Some (VBool healthy))
    ∧ obj_get result "latency" = Some (VNum (w_now w' - w_now w))
    ∧ obj_get result "timestamp" = Some (VStr (toISOString (w_now w')))
    ∧ fo_method first = VStr "HEAD"
    ∧ fo_body first = None
    ∧ match (w_net w (length (w_trace w)) url first).1 with
      | Fulfilled r =>
          w_trace w' = (w_trace w ++ [(url, first)])%list
          ∧ obj_get result "healthy" = Some (VBool (res_ok r))
      | Rejected _ =>
          ∃ second,
            w_trace w' = (w_trace w ++ [(url, first); (url, second)])%list
            ∧ fo_method second = VUndefined
            ∧ fo_body second = None
            ∧ ∀ e, (w_net w (Datatypes.S (length (w_trace w))) url second).1
                   = Rejected e →
                   obj_get result "healthy" = Some (VBool false)
                   ∧ obj_get result "error" = Some (VStr (err_message e))
      end
    ∧ (unreachable w url →
       obj_get result "healthy" = Some (VBool false)
       ∧ ∃ m, obj_get result "error" = Some (VStr m) ∧ m ≠ "").
Proof.
  unfold HttpClient.healthCheck, try_catch, bind, fetch, date_now, ret.
  simpl.
  destruct (w_net w (length (w_trace w)) url HttpClient.head_opts)
    as [[r|e] dt] eqn:Hhead; simpl.
  - eexists _, _, HttpClient.head_opts. split; [reflexivity|].
    simpl. rewrite ?Hhead. simpl. split_and!; eauto.
    intros Hun. destruct (Hun (length (w_trace w)) HttpClient.head_opts)
      as (dt' & [Hrej|Hrej]); congruence.
  - rewrite length_app. simpl.
    replace (length (w_trace w) + 1)%nat with (Datatypes.S (length (w_trace w)))
      by lia.
    destruct (w_net w (Datatypes.S (length (w_trace w))) url HttpClient.get_opts)
      as [[r|e'] dt'] eqn:Hget; simpl.
    + eexists _, _, HttpClient.head_opts. split; [reflexivity|].
      simpl. rewrite ?Hhead. simpl. split_and!; eauto.
      * exists HttpClient.get_opts. rewrite <- app_assoc.
        split_and!; try done. rewrite Hget. by intros e0 [=].
      * intros Hun.
        destruct (Hun (Datatypes.S (length (w_trace w))) HttpClient.get_opts)
          as (dt0 & [Hrej|Hrej]); congruence.
    + eexists _, _, HttpClient.head_opts. split; [reflexivity|].
      simpl. rewrite ?Hhead. simpl. split_and!; eauto.
      * exists HttpClient.get_opts. rewrite <- app_assoc.
        split_and!; try done. rewrite Hget. by intros e0 [= <-].
      * intros Hun. split; [done|].
        destruct (Hun (Datatypes.S (length (w_trace w))) HttpClient.get_opts)
          as (dt0 & [Hrej|Hrej]); rewrite Hget in Hrej;
          injection Hrej as -> _; eexists; (split; [reflexivity|]); done.
Qed.

End HttpClientProperties.

Lemma request_body_witness :
  fo_body (HttpClient.build_opts
             {| rq_url := "https://api.example.com/create";
                rq_method := VStr "POST"; rq_headers := VUndefined;
                rq_data := VObj [("value", VNum 42)] |})
  = Some ("{" ++ Js.quote "value" ++ ":42}")
  ∧ fo_body (HttpClient.build_opts
               {| rq_url := "https://api.example.com/data";
                  rq_method := VStr "GET"; rq_headers := VUndefined;
                  rq_data := VObj [("value", VNum 42)] |})
    = None.
Proof.
  split.
  - destruct (@request_body_only_for_write_methods unit
                {| rq_url := "https://api.example.com/create";
                   rq_method := VStr "POST"; rq_headers := VUndefined;
                   rq_data := VObj [("value", VNum 42)] |})
      as (_ & _ & Hwrite & _).
    rewrite Hwrite; [reflexivity | | reflexivity].
    exists "POST". split; [reflexivity | set_solver].
  - destruct (@request_body_only_for_write_methods unit
                {| rq_url := "https://api.example.com/data";
                   rq_method := VStr "GET"; rq_headers := VUndefined;
                   rq_data := VObj [("value", VNum 42)] |})
      as (_ & _ & _ & Hread).
    apply Hread. by left.
Defined.

Lemma healthCheck_unreachable_witness :
  unreachable offline_world "http://10.255.255.1/"
  ∧ ∃ result w',
      HttpClient.healthCheck "http://10.255.255.1/" offline_world
      = (Ok (VObj result), w')
      ∧ Js.obj_get result "healthy" = Some (VBool false)
      ∧ Js.obj_get result "error" = Some (VStr "fetch failed")
      ∧ Js.obj_get result "latency" = Some (VNum 6).
Proof.
  assert (unreachable offline_world "http://10.255.255.1/") as Hun.
  { intros k opts. eexists. left. reflexivity. }
  split; [exact Hun|].
  destruct (healthCheck_never_throws "http://10.255.255.1/" offline_world)
    as (result & w' & first & Hrun & _ & _ & _ & _ & _ & _ & Hfail).
  exists result, w'. split; [exact Hrun|].
  destruct (Hfail Hun) as [Hh _]. split; [exact Hh|].
  vm_compute in Hrun. injection Hrun as <- <-. split; reflexivity.
Defined.

(** ** Storage *)

Section StorageProperties.
Import Js.

(** C9: [updateConnection(id, patch)] on an id of the store writes the
    patch's properties over the stored connection and nothing else: a
    property the patch does not name keeps its value, every other connection
    and the log are untouched.  On an id that is not in the store it returns
    [false] and leaves the store as it was. *)
Theorem updateConnection_frame (id : string) (patch : value) (st : storage) :
  (∀ existing, connections st !! id = Some existing →
     ∃ updated st',
       Storage.updateConnection id patch st = (Some updated, st')
       ∧ connections st' !! id = Some updated
       ∧ (∀ k v, written (own_enumerable patch) k = Some v →
                 obj_get updated k = Some v)
       ∧ (∀ k, k ∉ obj_keys (own_enumerable patch) →
               obj_get updated k = obj_get existing k)
       ∧ (∀ id', id' ≠ id → connections st' !! id' = connections st !! id')
       ∧ logs st' = logs st)
  ∧ (connections st !! id = None →
     Storage.updateConnection id patch st = (None, st)).
Proof.
  unfold Storage.updateConnection. split.
  - intros existing ->. eexists _, _. split; [reflexivity|]. simpl.
    split_and!.
    + apply lookup_insert_eq.
    + intros k v Hk. by rewrite obj_get_spread, Hk.
    + intros k Hk. by rewrite obj_get_spread, written_None.
    + intros id' Hne. by rewrite lookup_insert_ne.
    + done.
  - by intros ->.
Qed.

Lemma updateConnection_frame_witness :
  ∃ updated st',
    Storage.updateConnection "c1" (VObj [("name", VStr "Orders to ERP")])
      sample_storage = (Some updated, st')
    ∧ obj_get updated "name" = Some (VStr "Orders to ERP")
    ∧ obj_get updated "destinationUrl"
      = Some (VStr "https://dest.example/hook")
    ∧ Storage.updateConnection "c2" (VObj [("name", VStr "Orders to ERP")])
        sample_storage = (None, sample_storage).
Proof.
  destruct (updateConnection_frame "c1" (VObj [("name", VStr "Orders to ERP")])
              sample_storage) as [Hin _].
  destruct (Hin sample_connection) as
    (updated & st' & Hrun & _ & Hnamed & Hframe & _); [reflexivity|].
  exists updated, st'. split; [exact Hrun|].
  split; [apply Hnamed; reflexivity|].
  split.
  - rewrite Hframe; [reflexivity|].
    simpl. intros Hin'. apply list_elem_of_singleton in Hin'. discriminate.
  - destruct (updateConnection_frame "c2"
                (VObj [("name", VStr "Orders to ERP")]) sample_storage)
      as [_ Hout].
    apply Hout. reflexivity.
Defined.

(** C10: after [logEvent(entry)] the log holds at most 500 entries; its
    first entry is the one just logged, which carries a [timestamp] (the
    clock reading, unless the entry brings its own) and the entry's
    properties; behind it come the 499 most recent earlier entries, in their
    order.  The connections are untouched. *)
Theorem logEvent_keeps_last_500 (now : Z) (entry : value) (st : storage) :
  (length (logs (Storage.logEvent now entry st)) ≤ 500)%nat
  ∧ logs (Storage.logEvent now entry st)
    = Storage.withMeta now entry :: take 499 (logs st)
  ∧ (∀ k, obj_get (Storage.withMeta now entry) k
          = match written (own_enumerable entry) k with
            | Some v => Some v
            | None => if String.eqb "timestamp" k
                      then Some (VStr (toISOString now)) else None
            end)
  ∧ is_Some (obj_get (Storage.withMeta now entry) "timestamp")
  ∧ connections (Storage.logEvent now entry st) = connections st.
Proof.
  assert (logs (Storage.logEvent now entry st)
          = Storage.withMeta now entry :: take 499 (logs st)) as Hlogs.
  { unfold Storage.logEvent. simpl.
    destruct (500 <? S (length (logs st)))%nat eqn:E.
    - done.
    - apply Nat.ltb_ge in E. rewrite take_ge by lia. done. }
  assert (∀ k, obj_get (Storage.withMeta now entry) k
               = match written (own_enumerable entry) k with
                 | Some v => Some v
                 | None => if String.eqb "timestamp" k
                           then Some (VStr (toISOString now)) else None
                 end) as Hmeta.
  { intros k. unfold Storage.withMeta. by rewrite obj_get_spread. }
  split_and!; try done.
  - rewrite Hlogs. simpl. rewrite length_take. lia.
  - rewrite Hmeta. by destruct (written _ _).
Qed.

End StorageProperties.

(** ** The batch execute handler *)

Section ExecuteHandlerProperties.
Import Js Eff.

Lemma request_run {S : Type} (spec : request_spec) (w : World S) :
  HttpClient.request spec w
  = (call_result w (length (w_trace w))
       (rq_url spec, HttpClient.build_opts spec),
     after_fetch (rq_url spec) (HttpClient.build_opts spec) w).
Proof.
  unfold HttpClient.request, call_result, request_result, try_catch, bind,
    fetch, json, ret, throw. simpl.
  destruct (w_net w _ _ _).1 as [r|e]; simpl;
    [|by destruct (String.eqb _ _)].
  destruct (includes _ _); simpl.
  - destruct (res_json r); simpl; [|done]. by destruct (res_ok r).
  - by destruct (res_ok r).
Qed.













End ExecuteHandlerProperties.

(** ** Running a computation step by step *)

Lemma bind_run {S A B : Type} (m : M S A) (k : A → M S B) (w w1 : World S)
    (a : A) :
  m w = (Ok a, w1) → Eff.bind m k w = k a w1.
Proof. unfold Eff.bind. by intros ->. Qed.


Ltac run_step tac := erewrite bind_run; [| solve [tac]].

(** ** The SQL-backed execute route *)

Section SqlExecuteProperties.
Import Js Eff SqlExecute.








Lemma bump_stats_same_endpoints (ok : bool) (now : Z) (row : ConnectionRow) :
  same_endpoints row (bump_stats ok now row).
Proof. by repeat split. Qed.



(** A run of the SQL-backed route in which the source answers 503: the
    failure is logged and the row's counters and [last_executed] are what
    they were. *)
Lemma execute_source_failure_leaves_stats :
  ∃ resp w',
    execute "c1" source_down_world = (Ok resp, w')
    ∧ statusCode resp = 500
    ∧ connections (w_store w') !! "c1" = Some sample_row
    ∧ execution_count sample_row = 3
    ∧ success <$> execution_logs (w_store w') = [false].
Proof.
  eexists _, _. split; [vm_compute; reflexivity|].
  split_and!; reflexivity.
Qed.


End SqlExecuteProperties.

(** ** The serverless execute handler *)

Section SheetsExecuteProperties.
Import Js Eff SheetsExecute.


End SheetsExecuteProperties.

(** ** Execution statistics *)

Section ExecutionStatistics.
Import Js Eff.


(** The serverless handler runs a connection whose destination answers
    500: the attempt fails, and [executionCount], [successCount] and
    [errorCount] are exactly what they were. *)
Lemma sheets_handler_failure_leaves_stats :
  ∃ resp w',
    SheetsExecute.handler no_env sample_api_request dest_500_sheets_world
    = (Ok resp, w')
    ∧ statusCode resp = 500
    ∧ SheetsExecute.sheet_connections (w_store w') !! "c1"
      = Some sample_sheet_connection
    ∧ SheetsExecute.executionCount (SheetsExecute.stats sample_sheet_connection)
      = 3
    ∧ SheetsExecute.errorCount (SheetsExecute.stats sample_sheet_connection)
      = 1.
Proof.
  eexists _, _. split; [vm_compute; reflexivity|].
  split_and!; reflexivity.
Qed.



End ExecutionStatistics.

(** * Further properties *)

(** ** Paths *)

Section PathProperties.
Import Js.

Lemma split_on_no_dot (k : string) :
  has_dot k = false → split_on "."%char k = [k].
Proof.
  induction k as [|c k IH]; simpl; [done|].
  intros [Hc Hk]%orb_false_elim. rewrite Hc, (IH Hk). done.
Qed.

Lemma split_on_segment_dot (k rest : string) :
  has_dot k = false →
  split_on "."%char (k ++ String "."%char rest) = k :: split_on "."%char rest.
Proof.
  induction k as [|c k IH]; simpl.
  - done.
  - intros [Hc Hk]%orb_false_elim. rewrite Hc, (IH Hk). done.
Qed.

Lemma split_on_join (keys : list string) :
  keys ≠ [] → Forall (fun k => has_dot k = false) keys →
  split_on "."%char (join "." keys) = keys.
Proof.
  unfold join. induction keys as [|k keys IH]; [done|].
  intros _ Hall. apply Forall_cons in Hall as [Hk Hall].
  destruct keys as [|k' keys].
  - simpl. by apply split_on_no_dot.
  - change (split_on "."%char
              (k ++ String "."%char (String.concat "." (k' :: keys)))
            = k :: k' :: keys).
    rewrite split_on_segment_dot by done.
    by rewrite IH.
Qed.

Lemma filter_segments (keys : list string) :
  Forall (fun k => is_segment k = true) keys → List.filter nonempty keys = keys.
Proof.
  induction keys as [|k keys IH]; simpl; [done|].
  intros [Hk Hall]%Forall_cons. apply andb_prop in Hk as [Hne _].
  rewrite Hne. by rewrite IH.
Qed.

Lemma path_keys_path_of (keys : list string) :
  Forall (fun k => is_segment k = true) keys →
  DataMapper.path_keys (path_of keys) = keys.
Proof.
  intros Hall. unfold DataMapper.path_keys, path_of.
  change (slice_from 2 ("$." ++ join "." keys)) with (join "." keys).
  destruct keys as [|k keys]; [done|].
  rewrite split_on_join; [by apply filter_segments | done |].
  eapply Forall_impl; [exact Hall|]. simpl.
  intros x [_ Hx]%andb_prop. by apply negb_true_iff in Hx.
Qed.

Lemma startsWith_path_of (keys : list string) :
  startsWith "$." (path_of keys) = true.
Proof.
  unfold startsWith, path_of. simpl.
  match goal with |- String.prefix _ ?x = true => by destruct x end.
Qed.

Lemma split_on_dot_free (s k : string) :
  In k (split_on "."%char s) → has_dot k = false.
Proof.
  revert k. induction s as [|c s IH]; simpl; intros k.
  - by intros [<-|[]].
  - destruct (Ascii.eqb c "."%char) eqn:E.
    + intros [<-|Hin]; [done | by apply IH].
    + destruct (split_on "."%char s) as [|seg segs] eqn:Hs.
      * by intros [<-|[]]; simpl; rewrite E.
      * intros [<-|Hin]; simpl.
        -- rewrite E. apply IH. by left.
        -- apply IH. by right.
Qed.

Lemma merged_path_keys (p : string) :
  startsWith "$." p = true →
  MergedDataMapper.path_keys p = DataMapper.path_keys p.
Proof.
  unfold MergedDataMapper.path_keys, DataMapper.path_keys, startsWith.
  intros Hp. destruct p as [|c p]; [done|]. 
  unfold replace_first. rewrite Hp. simpl.
  apply List.filter_ext. intros k. unfold nonempty. by destruct k.
Qed.

(** X1: the keys a path expression is split into are never empty and never
    contain a dot, and splitting undoes joining: the path that joins
    non-empty dot-free keys with dots behind ["$."] splits into exactly
    those keys, in the current [DataMapper] and in the earlier one. *)
Theorem path_keys_round_trip :
  (∀ p k, In k (DataMapper.path_keys p) → is_segment k = true)
  ∧ (∀ keys, Forall (fun k => is_segment k = true) keys →
       DataMapper.path_keys (path_of keys) = keys
       ∧ MergedDataMapper.path_keys (path_of keys) = keys).
Proof.
  split.
  - intros p k [Hin Hne]%List.filter_In. unfold is_segment. rewrite Hne.
    simpl. by rewrite (split_on_dot_free _ _ Hin).
  - intros keys Hall. split; [by apply path_keys_path_of|].
    rewrite merged_path_keys by apply startsWith_path_of.
    by apply path_keys_path_of.
Qed.

Lemma path_keys_round_trip_witness :
  DataMapper.path_keys (path_of ["user"; "profile"; "name"])
  = ["user"; "profile"; "name"]
  ∧ MergedDataMapper.path_keys (path_of ["user"; "profile"; "name"])
    = ["user"; "profile"; "name"].
Proof.
  destruct path_keys_round_trip as [_ Hrt].
  apply Hrt. repeat constructor.
Defined.

Lemma walk_undefined (keys : list string) :
  DataMapper.walk keys VUndefined = VUndefined.
Proof. by destruct keys. Qed.

Lemma walk_app (a b : list string) (v : value) :
  DataMapper.walk (a ++ b) v = DataMapper.walk b (DataMapper.walk a v).
Proof.
  revert v. induction a as [|k a IH]; intros v; simpl; [done|].
  destruct (truthy v && typeof_object v && has_property v k); [apply IH|].
  by rewrite walk_undefined.
Qed.

Lemma Forall_segment_app (a b : list string) :
  Forall (fun k => is_segment k = true) a →
  Forall (fun k => is_segment k = true) b →
  Forall (fun k => is_segment k = true) (a ++ b).
Proof. intros Ha Hb. by apply Forall_app. Qed.

Lemma getValueByPath_path_of (o : value) (keys : list string) :
  Forall (fun k => is_segment k = true) keys →
  DataMapper.getValueByPath o (VStr (path_of keys)) = DataMapper.walk keys o.
Proof.
  intros Hall. unfold DataMapper.getValueByPath.
  change (negb (truthy (VStr (path_of keys)))
          || negb (typeof_string (VStr (path_of keys)))) with false.
  cbv iota. rewrite startsWith_path_of. simpl negb.
  cbv iota. by rewrite path_keys_path_of.
Qed.

(** X2: resolution composes along the path: resolving the keys [a] followed
    by the keys [b] gives what resolving [b] gives on the value that [a]
    resolves to. *)
Theorem getValueByPath_composes (o : value) (a b : list string) :
  Forall (fun k => is_segment k = true) a →
  Forall (fun k => is_segment k = true) b →
  DataMapper.getValueByPath o (VStr (path_of (a ++ b)))
  = DataMapper.getValueByPath
      (DataMapper.getValueByPath o (VStr (path_of a))) (VStr (path_of b)).
Proof.
  intros Ha Hb.
  rewrite !getValueByPath_path_of by (done || by apply Forall_segment_app).
  apply walk_app.
Qed.

Lemma getValueByPath_composes_witness :
  DataMapper.getValueByPath
    (VObj [("user", VObj [("profile", VObj [("name", VStr "Ava")])])])
    (VStr (path_of (["user"; "profile"] ++ ["name"])))
  = DataMapper.getValueByPath
      (DataMapper.getValueByPath
         (VObj [("user", VObj [("profile", VObj [("name", VStr "Ava")])])])
         (VStr (path_of ["user"; "profile"])))
      (VStr (path_of ["name"])).
Proof. apply getValueByPath_composes; repeat constructor. Defined.

Lemma merged_walk_undefined (keys : list string) :
  MergedDataMapper.walk keys VUndefined = VUndefined.
Proof. by destruct keys. Qed.

Lemma walk_versions_agree (keys : list string) (v : value) :
  DataMapper.walk keys v = MergedDataMapper.walk keys v.
Proof.
  revert v. induction keys as [|k keys IH]; intros v; simpl; [done|].
  destruct (truthy v && typeof_object v) eqn:Hobj; simpl; [|done].
  destruct (has_property v k) eqn:Hhas; [apply IH|].
  assert (get_property v k = VUndefined) as ->;
    [|by rewrite merged_walk_undefined].
  destruct v; simpl in *; try done.
  - by rewrite andb_false_r in Hobj.
  - apply orb_false_elim in Hhas as [Hlen Hidx]. rewrite Hlen.
    destruct (array_index k) as [i|]; [|done].
    apply bool_decide_eq_false in Hidx.
    rewrite (proj2 (lookup_ge_None items i)); [done | lia].
  - apply bool_decide_eq_false in Hhas.
    destruct (obj_get props k); [|done]. exfalso. apply Hhas. by eexists.
Qed.

Lemma getValueByPath_versions_agree_on (o : value) (p : string) :
  p ≠ "" →
  DataMapper.getValueByPath o (VStr p) = MergedDataMapper.getValueByPath o p.
Proof.
  intros Hp. rewrite getValueByPath_string by done.
  unfold MergedDataMapper.getValueByPath.
  destruct (startsWith "$." p) eqn:E; simpl; [|done].
  rewrite merged_path_keys by done. apply walk_versions_agree.
Qed.

(** X3: the current [getValueByPath] and the earlier one of [merged_http2]
    resolve every non-empty path string to the same value: the [k in cur]
    test of the current one changes nothing, since reading a missing
    property gives [undefined] and the walk then ends in [undefined]. *)
Theorem getValueByPath_versions_agree (o : value) (p : string) :
  p ≠ "" →
  DataMapper.getValueByPath o (VStr p) = MergedDataMapper.getValueByPath o p.
Proof.
  apply getValueByPath_versions_agree_on.
Qed.

Lemma getValueByPath_versions_agree_witness :
  DataMapper.getValueByPath
    (VObj [("items", VArr [VObj [("sku", VStr "A1")]])]) (VStr "$.items.0.sku")
  = MergedDataMapper.getValueByPath
      (VObj [("items", VArr [VObj [("sku", VStr "A1")]])]) "$.items.0.sku".
Proof. apply getValueByPath_versions_agree. discriminate. Defined.

End PathProperties.

(** ** Keyed mappings *)

Section KeyedMappingProperties.
Import Js.






End KeyedMappingProperties.

(** ** Validators *)

Section ValidatorProperties.
Import Js.

Lemma required_nil (conn : value) (field message : string) :
  ConnectionValidator.required conn field message = []
  ↔ truthy (get_property conn field) = true.
Proof.
  unfold ConnectionValidator.required.
  destruct (truthy (get_property conn field)); simpl; split; done.
Qed.

(** X6: [validateConnection] accepts exactly the truthy values whose [id],
    [name], [sourceUrl] and [destinationUrl] are all truthy and whose
    [mappings], when truthy, is an array or an object; it never reports more
    than five errors. *)
Theorem validateConnection_accepts (conn : value) :
  (ConnectionValidator.validateConnection conn = []
   ↔ truthy conn = true
     ∧ truthy (get_property conn "id") = true
     ∧ truthy (get_property conn "name") = true
     ∧ truthy (get_property conn "sourceUrl") = true
     ∧ truthy (get_property conn "destinationUrl") = true
     ∧ (truthy (get_property conn "mappings") = false
        ∨ (∃ rules, get_property conn "mappings" = VArr rules)
        ∨ (∃ m, get_property conn "mappings" = VObj m)))
  ∧ (length (ConnectionValidator.validateConnection conn) ≤ 5)%nat.
Proof.
  unfold ConnectionValidator.validateConnection. split.
  - destruct (truthy conn); simpl; [|split; [done | by intros [? _]]].
    rewrite !app_nil, !required_nil.
    destruct (get_property conn "mappings") as [| |b|n|s|rules|m] eqn:Hm;
      simpl; try destruct b; try destruct (n =? 0); 
      try destruct (String.eqb s ""); simpl;
      split; try (intros (?&?&?&?&?); split_and!; eauto; fail);
      try (intros (?&?&?&?&?&?); split_and!; done);
      try (intros (?&?&?&?&?); done);
      try (intros (_&_&_&_&_&[?|[[? ?]|[? ?]]]); done).
  - destruct (truthy conn); simpl; [|lia].
    rewrite !length_app. unfold ConnectionValidator.required.
    repeat (match goal with
            | |- context [if ?c then _ else _] => destruct c
            end; simpl); lia.
Qed.

(** X7: [validateExecutePayload] accepts exactly the truthy payloads with a
    truthy [connectionId] and an array under [records]. *)
Theorem validateExecutePayload_accepts (payload : value) :
  Validator.validateExecutePayload payload = []
  ↔ truthy payload = true
    ∧ truthy (get_property payload "connectionId") = true
    ∧ ∃ records, get_property payload "records" = VArr records.
Proof.
  unfold Validator.validateExecutePayload.
  destruct (truthy payload); simpl; [|split; [done | by intros [? _]]].
  destruct (truthy (get_property payload "connectionId")); simpl;
    destruct (get_property payload "records"); simpl;
    split; try done; try (intros (_ & _ & [? ?]); done);
    try (intros (_ & ? & _); done).
  intros _. eauto.
Qed.

End ValidatorProperties.

(** ** What a spread writes *)

Section WrittenLemmas.
Import Js.

Lemma written_get (props : obj) (k : string) :
  NoDup (obj_keys props) → written props k = obj_get props k.
Proof.
  unfold written, obj_keys.
  induction props as [|[k' v] props IH]; simpl; [done|].
  intros [Hk' Hnd]%NoDup_cons. destruct (String.eqb k' k) eqn:E.
  - apply String.eqb_eq in E. subst k'.
    assert (List.filter (fun kv => String.eqb (fst kv) k) props = []) as ->;
      [|done].
    clear IH Hnd. induction props as [|[k2 v2] props IH]; simpl; [done|].
    destruct (String.eqb k2 k) eqn:E2.
    + apply String.eqb_eq in E2. subst. exfalso. apply Hk'. simpl. left.
    + apply IH. intros H. apply Hk'. simpl. by right.
  - by apply IH.
Qed.

Lemma spread_NoDup (a b : obj) :
  NoDup (obj_keys a) → NoDup (obj_keys (spread a b)).
Proof.
  unfold spread. revert a. induction b as [|[k v] b IH]; intros a Ha; simpl;
    [done|].
  apply IH. by apply obj_keys_define_NoDup.
Qed.

(** What the object [{ ...a, ...b }] holds under [k], for [a] an object
    proper (no name twice). *)
Lemma written_spread (a b : obj) (k : string) :
  NoDup (obj_keys a) →
  written (spread a b) k
  = match written b k with
    | Some v => Some v
    | None => written a k
    end.
Proof.
  intros Ha.
  rewrite (written_get (spread a b)) by by apply spread_NoDup.
  rewrite obj_get_spread. destruct (written b k); [done|].
  by rewrite written_get.
Qed.

End WrittenLemmas.

(** ** Storage queries *)

Section StorageQueryProperties.
Import Js.

Lemma filter_sublist {A : Type} (f : A → bool) (l : list A) :
  List.filter f l `sublist_of` l.
Proof.
  induction l as [|x l IH]; simpl; [done|].
  destruct (f x); [by apply sublist_skip | by apply sublist_cons].
Qed.

Lemma slice_to_sublist {A : Type} (limit : Z) (l : list A) :
  StorageQueries.slice_to limit l `sublist_of` l.
Proof.
  unfold StorageQueries.slice_to. destruct (limit <? 0); apply sublist_take.
Qed.

(** X8: [listLogs] returns entries of the log in the log's order, each of
    which passes the filter: with a non-empty [connectionId] every returned
    entry has exactly that [connectionId].  With a [limit] that is not
    negative it returns at most [limit] entries, and at most 50 when no
    limit is given. *)
Theorem listLogs_sound (filter : StorageQueries.log_filter) (st : storage) :
  StorageQueries.listLogs filter st `sublist_of` logs st
  ∧ (∀ l id, In l (StorageQueries.listLogs filter st) →
             StorageQueries.filter_connectionId filter = Some id → id ≠ "" →
             obj_get l "connectionId" = Some (VStr id))
  ∧ (∀ limit, StorageQueries.filter_limit filter = Some limit → 0 ≤ limit →
              Z.of_nat (length (StorageQueries.listLogs filter st)) ≤ limit)
  ∧ (StorageQueries.filter_limit filter = None →
     (length (StorageQueries.listLogs filter st) ≤ 50)%nat).
Proof.
  unfold StorageQueries.listLogs. split_and!.
  - etrans; [apply slice_to_sublist | apply filter_sublist].
  - intros l id Hin Hid Hne.
    assert (In l (List.filter
                    (StorageQueries.matches
                       (StorageQueries.filter_connectionId filter))
                    (logs st))) as Hf.
    { apply list_elem_of_In.
      eapply sublist_subseteq; [apply slice_to_sublist|].
      by apply list_elem_of_In. }
    apply List.filter_In in Hf as [_ Hm]. rewrite Hid in Hm.
    unfold StorageQueries.matches in Hm. simpl in Hm.
    assert (nonempty id = true) as Hn.
    { unfold nonempty. destruct (String.eqb id "") eqn:E; [|done].
      by apply String.eqb_eq in E. }
    rewrite Hn in Hm. simpl in Hm.
    destruct (obj_get l "connectionId") as [[]|]; simpl in Hm; try done.
    apply String.eqb_eq in Hm. by subst.
  - intros limit -> Hpos. simpl. unfold StorageQueries.slice_to.
    destruct (limit <? 0) eqn:E; [apply Z.ltb_lt in E; lia|].
    rewrite length_take. lia.
  - intros ->. simpl. unfold StorageQueries.slice_to. simpl.
    rewrite length_take. lia.
Qed.

Lemma listLogs_sound_witness :
  Forall (λ l, obj_get l "connectionId" = Some (VStr "c1"))
    (StorageQueries.listLogs c1_filter two_logs_storage)
  ∧ length (StorageQueries.listLogs c1_filter two_logs_storage) = 1%nat.
Proof.
  split; [|reflexivity]. apply Forall_forall. intros l Hin.
  apply list_elem_of_In in Hin.
  eapply (proj1 (proj2 (listLogs_sound _ _))); [exact Hin | reflexivity |].
  discriminate.
Defined.

(** X9: an entry logged with a non-empty string [connectionId] is the first
    answer of the next [listLogs] for that connection, whatever the log held
    before, as long as the limit is positive or left out. *)
Theorem listLogs_after_logEvent (now : Z) (entry : value) (st : storage)
    (id : string) (filter : StorageQueries.log_filter) :
  id ≠ "" →
  written (own_enumerable entry) "connectionId" = Some (VStr id) →
  StorageQueries.filter_connectionId filter = Some id →
  (∀ limit, StorageQueries.filter_limit filter = Some limit → 0 < limit) →
  head (StorageQueries.listLogs filter (Storage.logEvent now entry st))
  = Some (Storage.withMeta now entry).
Proof.
  intros Hne Hid Hf Hlimit.
  assert (logs (Storage.logEvent now entry st)
          = Storage.withMeta now entry :: take 499 (logs st)) as Hlogs.
  { unfold Storage.logEvent. simpl.
    destruct (500 <? S (length (logs st)))%nat eqn:E; [done|].
    apply Nat.ltb_ge in E. rewrite take_ge by lia. done. }
  unfold StorageQueries.listLogs. rewrite Hlogs, Hf.
  assert (StorageQueries.matches (Some id) (Storage.withMeta now entry) = true)
    as Hm.
  { unfold StorageQueries.matches, Storage.withMeta.
    cbn [get_property]. rewrite obj_get_spread, Hid. simpl.
    rewrite String.eqb_refl. apply orb_true_r. }
  cbn [List.filter]. rewrite Hm.
  unfold StorageQueries.slice_to.
  destruct (StorageQueries.filter_limit filter) as [limit|] eqn:Hl; simpl.
  - specialize (Hlimit limit eq_refl).
    destruct (limit <? 0) eqn:E; [apply Z.ltb_lt in E; lia|].
    destruct (Z.to_nat limit) eqn:Hn; [lia | done].
  - done.
Qed.

Lemma listLogs_after_logEvent_witness :
  head (StorageQueries.listLogs
          {| StorageQueries.filter_connectionId := Some "c1";
             StorageQueries.filter_limit := None |}
          (Storage.logEvent 1700000000000
             (VObj [("event", VStr "execute"); ("connectionId", VStr "c1")])
             sample_storage))
  = Some (Storage.withMeta 1700000000000
            (VObj [("event", VStr "execute"); ("connectionId", VStr "c1")])).
Proof.
  apply (listLogs_after_logEvent _ _ _ "c1");
    [discriminate | reflexivity | reflexivity | discriminate].
Defined.

(** X10: two patches applied one after the other leave the connection with
    the properties that the single patch [{ ...first, ...second }] gives
    it: a property named by both takes the second patch's value, and the
    rest of the store is the same either way.  ([first] is an object
    proper: it has no property name twice.) *)
Theorem updateConnection_twice (id : string) (first second : value)
    (st : storage) (existing : obj) :
  connections st !! id = Some existing →
  NoDup (obj_keys (own_enumerable first)) →
  ∃ twice once,
    connections
      (Storage.updateConnection id second
         (Storage.updateConnection id first st).2).2 !! id = Some twice
    ∧ connections
        (Storage.updateConnection id
           (VObj (spread (own_enumerable first) (own_enumerable second)))
           st).2 !! id = Some once
    ∧ (∀ k, obj_get twice k = obj_get once k)
    ∧ ∀ id', id' ≠ id →
        connections
          (Storage.updateConnection id second
             (Storage.updateConnection id first st).2).2 !! id'
        = connections st !! id'.
Proof.
  intros Hex Hnd. unfold Storage.updateConnection. rewrite Hex. simpl.
  rewrite lookup_insert_eq. simpl.
  eexists _, _. rewrite !lookup_insert_eq. split; [done|]. split; [done|].
  split.
  - intros k. rewrite !obj_get_spread.
    unfold written at 2.
    change (snd <$> last (List.filter (fun kv => String.eqb (fst kv) k)
                            (spread (own_enumerable first)
                                    (own_enumerable second))))
      with (written (spread (own_enumerable first) (own_enumerable second)) k).
    rewrite written_spread by done.
    by destruct (written (own_enumerable second) k).
  - intros id' Hne. by rewrite !lookup_insert_ne.
Qed.

Lemma updateConnection_twice_witness :
  ∃ twice,
    connections
      (Storage.updateConnection "c1" (VObj [("name", VStr "B")])
         (Storage.updateConnection "c1"
            (VObj [("name", VStr "A"); ("paused", VBool true)])
            sample_storage).2).2 !! "c1" = Some twice
    ∧ obj_get twice "name" = Some (VStr "B")
    ∧ obj_get twice "paused" = Some (VBool true).
Proof.
  destruct (updateConnection_twice "c1"
              (VObj [("name", VStr "A"); ("paused", VBool true)])
              (VObj [("name", VStr "B")]) sample_storage sample_connection)
    as (twice & once & Htwice & Honce & Hsame & _);
    [reflexivity | by apply (bool_decide_unpack _) |].
  exists twice. split; [exact Htwice|].
  vm_compute in Honce. injection Honce as <-.
  split; rewrite Hsame; reflexivity.
Defined.

End StorageQueryProperties.

(** ** The outcomes of a request *)

Section RequestProperties.
Import Js Eff.
Context {S : Type}.

Lemma request_result_run (spec : request_spec) (w : World S) :
  HttpClient.request spec w
  = (request_result
       (w_net w (length (w_trace w)) (rq_url spec)
          (HttpClient.build_opts spec)).1,
     after_fetch (rq_url spec) (HttpClient.build_opts spec) w).
Proof.
  unfold HttpClient.request, request_result, try_catch, bind,
    fetch, json, ret, throw. simpl.
  destruct (w_net w _ _ _).1 as [r|e]; simpl;
    [|by destruct (String.eqb _ _)].
  destruct (includes _ _); simpl.
  - destruct (res_json r); simpl; [|done]. by destruct (res_ok r).
  - by destruct (res_ok r).
Qed.

(** X11: [request] resolves only for an answer with a 2xx status: the
    result then carries that status, and as body the parsed JSON when the
    content type says JSON and the raw text otherwise. *)
Theorem request_resolves_only_2xx (spec : request_spec) (w w' : World S)
    (out : http_result) :
  HttpClient.request spec w = (Ok out, w') →
  ∃ r,
    (w_net w (length (w_trace w)) (rq_url spec)
       (HttpClient.build_opts spec)).1 = Fulfilled r
    ∧ 200 ≤ res_status r ≤ 299
    ∧ hr_status out = res_status r
    ∧ (if includes "application/json" (HttpClient.content_type r)
       then res_json r = Some (hr_body out)
       else hr_body out = VStr (res_text r))
    ∧ w' = after_fetch (rq_url spec) (HttpClient.build_opts spec) w.
Proof.
  rewrite request_result_run. intros [= Hres <-].
  unfold request_result in Hres.
  destruct (w_net w _ _ _).1 as [r|e]; [|done].
  exists r. split; [done|].
  destruct (includes _ _).
  - destruct (res_json r) as [v|]; [|done].
    destruct (res_ok r) eqn:Hok; [|done]. injection Hres as <-. simpl.
    unfold res_ok in Hok. split_and!; try done; lia.
  - destruct (res_ok r) eqn:Hok; [|done]. injection Hres as <-. simpl.
    unfold res_ok in Hok. split_and!; try done; lia.
Qed.

(** X12: [request] fails in one of four ways, told apart by the error it
    throws: a request cut off by its timer throws a plain
    ["Request timeout"] without a status; any other rejection of [fetch] is
    rethrown as it is; an answer announced as JSON that does not parse
    throws the parse error; an answer with a status outside 2xx throws
    [HTTP <status> <statusText>] carrying the status of the answer and its
    body, the parsed JSON when the content type says JSON and the raw text
    otherwise. *)
Theorem request_failures (spec : request_spec) (w w' : World S)
    (e : js_error) :
  HttpClient.request spec w = (Throw e, w') →
  (∃ e0, (w_net w (length (w_trace w)) (rq_url spec)
            (HttpClient.build_opts spec)).1 = Rejected e0
         ∧ err_name e0 = "AbortError"
         ∧ e = mkError "Error" "Request timeout"
         ∧ err_status e = None)
  ∨ (∃ e0, (w_net w (length (w_trace w)) (rq_url spec)
              (HttpClient.build_opts spec)).1 = Rejected e0
           ∧ err_name e0 ≠ "AbortError" ∧ e = e0)
  ∨ (∃ r, (w_net w (length (w_trace w)) (rq_url spec)
             (HttpClient.build_opts spec)).1 = Fulfilled r
          ∧ includes "application/json" (HttpClient.content_type r) = true
          ∧ res_json r = None
          ∧ err_name e = "SyntaxError")
  ∨ (∃ r body,
        (w_net w (length (w_trace w)) (rq_url spec)
           (HttpClient.build_opts spec)).1 = Fulfilled r
        ∧ res_ok r = false
        ∧ err_message e
          = "HTTP " ++ pretty (res_status r) ++ " " ++ res_statusText r
        ∧ err_status e = Some (res_status r)
        ∧ err_body e = Some body
        ∧ (if includes "application/json" (HttpClient.content_type r)
           then res_json r = Some body
           else body = VStr (res_text r))).
Proof.
  rewrite request_result_run. intros [= Hres _].
  unfold request_result in Hres.
  destruct (w_net w _ _ _).1 as [r|e0].
  - right. right. destruct (includes _ _) eqn:Hct.
    + destruct (res_json r) as [v|] eqn:Hj.
      * destruct (res_ok r) eqn:Hok; [done|]. injection Hres as <-.
        right. exists r, v. rewrite Hct. by split_and!.
      * injection Hres as <-. left. by exists r.
    + destruct (res_ok r) eqn:Hok; [done|]. injection Hres as <-.
      right. eexists r, _. rewrite Hct. by split_and!.
  - injection Hres as <-. destruct (String.eqb (err_name e0) "AbortError") eqn:E.
    + apply String.eqb_eq in E. left. by exists e0.
    + apply String.eqb_neq in E. right. left. by exists e0.
Qed.

(** X13: the headers [request] sends are the caller's over the default: a
    header the caller names has the caller's value, [Content-Type] is
    [application/json] unless the caller names it, and nothing else is
    sent. *)
Theorem request_headers (spec : request_spec) :
  ∃ sent,
    fo_headers (HttpClient.build_opts spec) = VObj sent
    ∧ ∀ name,
        obj_get sent name
        = match written (own_enumerable (rq_headers spec)) name with
          | Some v => Some v
          | None => if String.eqb "Content-Type" name
                    then Some (VStr "application/json") else None
          end.
Proof.
  unfold HttpClient.build_opts. cbn [fo_headers]. eexists. split; [done|].
  intros name. rewrite obj_get_spread.
  assert (own_enumerable (HttpClient.or_default (rq_headers spec) (VObj []))
          = own_enumerable (rq_headers spec)) as ->; [|done].
  unfold HttpClient.or_default. by destruct (rq_headers spec).
Qed.

(** X14: what a probe reports.  When its first request, a HEAD, is
    answered, the result carries the [status] of that answer, [healthy]
    exactly for a 2xx, and no [error], and nothing more is sent.  When the
    HEAD is rejected and the second request, without a method, is answered,
    the result reports that answer in the same way.  When both are rejected
    the result carries no [status], [healthy: false], and as [error] the
    message of the second rejection.  The probe leaves the store as it
    was. *)
Theorem healthCheck_status_or_error (url : string) (w : World S) :
  ∃ result w' first second,
    HttpClient.healthCheck url w = (Ok (VObj result), w')
    ∧ w_store w' = w_store w
    ∧ fo_method first = VStr "HEAD"
    ∧ fo_method second = VUndefined
    ∧ match (w_net w (length (w_trace w)) url first).1 with
      | Fulfilled r =>
          probe_reports r result
          ∧ w_trace w' = (w_trace w ++ [(url, first)])%list
      | Rejected _ =>
          w_trace w' = (w_trace w ++ [(url, first); (url, second)])%list
          ∧ match (w_net w (Datatypes.S (length (w_trace w))) url second).1
            with
            | Fulfilled r => probe_reports r result
            | Rejected e =>
                obj_get result "status" = None
                ∧ obj_get result "error" = Some (VStr (err_message e))
                ∧ obj_get result "healthy" = Some (VBool false)
            end
      end.
Proof.
  unfold HttpClient.healthCheck, try_catch, bind, fetch, date_now, ret.
  simpl.
  destruct (w_net w (length (w_trace w)) url HttpClient.head_opts).1
    as [r|e] eqn:Hhead; simpl.
  - eexists _, _, HttpClient.head_opts, HttpClient.get_opts.
    split; [reflexivity|]. rewrite Hhead. simpl. by split_and!.
  - rewrite length_app. simpl.
    replace (length (w_trace w) + 1)%nat
      with (Datatypes.S (length (w_trace w))) by lia.
    destruct (w_net w (Datatypes.S (length (w_trace w))) url
                HttpClient.get_opts).1 as [r|e'] eqn:Hget; simpl.
    + eexists _, _, HttpClient.head_opts, HttpClient.get_opts.
      split; [reflexivity|]. rewrite Hhead, Hget. simpl.
      rewrite <- app_assoc. by split_and!.
    + eexists _, _, HttpClient.head_opts, HttpClient.get_opts.
      split; [reflexivity|]. rewrite Hhead, Hget. simpl.
      rewrite <- app_assoc. by split_and!.
Qed.

End RequestProperties.

(** ** The two HTTP clients *)

Section ClientVersions.
Import Js Eff.
Context {S : Type}.

(** X15: the earlier client and the current one hand [fetch] the same
    [method] and the same [headers], and the same [body] unless the method
    is DELETE: for a DELETE the current client sends truthy data as body
    and the earlier one sends no body.  The two option objects are never
    equal: the current one carries an abort signal and no [timeout]
    property, the earlier one a [timeout] property (10000 when the caller
    gives none) and no signal. *)
Theorem build_options_versions (spec : request_spec) :
  fo_method (MergedHttpClient.build_options spec)
  = fo_method (HttpClient.build_opts spec)
  ∧ fo_headers (MergedHttpClient.build_options spec)
    = fo_headers (HttpClient.build_opts spec)
  ∧ (rq_method spec ≠ VStr "DELETE" →
     fo_body (MergedHttpClient.build_options spec)
     = fo_body (HttpClient.build_opts spec))
  ∧ (rq_method spec = VStr "DELETE" →
     fo_body (MergedHttpClient.build_options spec) = None
     ∧ fo_body (HttpClient.build_opts spec)
       = (if truthy (rq_data spec) then stringify (rq_data spec) else None))
  ∧ fo_signal (HttpClient.build_opts spec) = true
  ∧ fo_timeout (HttpClient.build_opts spec) = None
  ∧ fo_signal (MergedHttpClient.build_options spec) = false
  ∧ fo_timeout (MergedHttpClient.build_options spec) = Some 10000
  ∧ MergedHttpClient.build_options spec ≠ HttpClient.build_opts spec.
Proof.
  unfold MergedHttpClient.build_options, HttpClient.build_opts. simpl.
  split_and!; try done.
  - intros Hm. f_equal.
    unfold HttpClient.or_default.
    destruct (rq_method spec) as [| |b|n|m|l|o]; simpl; try done.
    unfold HttpClient.write_methods. simpl.
    destruct (String.eqb m "POST"), (String.eqb m "PUT"),
      (String.eqb m "PATCH"); simpl; try done.
    destruct (String.eqb m "DELETE") eqn:E; [|done].
    apply String.eqb_eq in E. by subst.
  - intros ->. simpl. split.
    + by rewrite andb_false_r.
    + rewrite andb_true_r. by destruct (rq_data spec).
Qed.

(** X16: the earlier client resolves only for a 2xx answer, to an object
    that carries the status of the answer and, as [body] and as [data], its
    body: the parsed JSON when the content type says JSON and the raw text
    otherwise.  Every failure is thrown as a plain [Error] without a status
    or a body of its own, whose message is ["Request failed: "] followed by
    the message of the original error: that of the rejection of [fetch],
    that of the parse error of a body announced as JSON, or
    [HTTP <status>: <statusText>] for an answer outside 2xx. *)
Theorem merged_request_outcomes (spec : request_spec) (w : World S) :
  (∀ v w', MergedHttpClient.request spec w = (Ok v, w') →
     ∃ r body,
       (w_net w (length (w_trace w)) (rq_url spec)
          (MergedHttpClient.build_options spec)).1 = Fulfilled r
       ∧ res_ok r = true
       ∧ get_property v "status" = VNum (res_status r)
       ∧ get_property v "body" = body
       ∧ get_property v "data" = body
       ∧ (if MergedHttpClient.is_json r then res_json r = Some body
          else body = VStr (res_text r)))
  ∧ (∀ e w', MergedHttpClient.request spec w = (Throw e, w') →
       err_name e = "Error" ∧ err_status e = None ∧ err_body e = None
       ∧ match (w_net w (length (w_trace w)) (rq_url spec)
                  (MergedHttpClient.build_options spec)).1 with
         | Rejected e0 =>
             err_message e = "Request failed: " ++ err_message e0
         | Fulfilled r =>
             (MergedHttpClient.is_json r = true ∧ res_json r = None
              ∧ ∃ parse_error,
                  err_name parse_error = "SyntaxError"
                  ∧ err_message e
                    = "Request failed: " ++ err_message parse_error)
             ∨ (res_ok r = false
                ∧ err_message e
                  = "Request failed: HTTP " ++ pretty (res_status r)
                    ++ ": " ++ res_statusText r)
         end).
Proof.
  unfold MergedHttpClient.request, try_catch, bind, fetch, json, ret, throw.
  split.
  - intros v w'.
    destruct (w_net w _ _ _).1 as [r|e]; simpl; [|done].
    destruct (MergedHttpClient.is_json r) eqn:Hj; simpl.
    + destruct (res_json r) as [body|] eqn:Hb; simpl; [|done].
      destruct (res_ok r) eqn:Hok; simpl; [|done].
      intros [= <- <-]. exists r, body. rewrite Hj. by split_and!.
    + destruct (res_ok r) eqn:Hok; simpl; [|done].
      intros [= <- <-]. eexists r, _. rewrite Hj. by split_and!.
  - intros e w'.
    destruct (w_net w _ _ _).1 as [r|e0]; simpl.
    + destruct (MergedHttpClient.is_json r) eqn:Hj; simpl.
      * destruct (res_json r) eqn:Hb; simpl.
        -- destruct (res_ok r) eqn:Hok; simpl; [done|].
           intros [= <- <-]. split_and!; try done. by right.
        -- intros [= <- <-]. split_and!; try done. left.
           split_and!; try done. by eexists (mkError "SyntaxError" _).
      * destruct (res_ok r) eqn:Hok; simpl; [done|].
        intros [= <- <-]. split_and!; try done. by right.
    + by intros [= <- <-].
Qed.

End ClientVersions.

Lemma request_resolves_witness :
  ∃ out w',
    HttpClient.request sample_get online_world = (Ok out, w')
    ∧ hr_status out = 200
    ∧ hr_body out = VObj [("received", VBool true)].
Proof.
  eexists _, _. split; [reflexivity|].
  destruct (request_resolves_only_2xx sample_get online_world _ _ eq_refl)
    as (r & Hr & _ & Hstatus & Hbody & _).
  cbv in Hr. injection Hr as <-. split; [exact Hstatus|].
  reflexivity.
Defined.

Lemma request_failures_witness :
  ∃ e w',
    HttpClient.request sample_get offline_world = (Throw e, w')
    ∧ err_message e = "fetch failed"
    ∧ err_status e = None.
Proof.
  eexists _, _. split; [reflexivity|].
  destruct (request_failures sample_get offline_world _ _ eq_refl)
    as [(e0 & _ & _ & He & _)|_]; [discriminate He|].
  split; reflexivity.
Defined.

(** ** The batch handler, further *)

Section BatchHandlerProperties.
Import Js Eff.

Lemma request_ok_status {S : Type} (w : World S) (k : nat)
    (call : string * fetch_opts) (out : http_result) :
  call_result w k call = Ok out → 200 ≤ hr_status out ≤ 299.
Proof.
  unfold call_result, request_result.
  destruct (w_net w k call.1 call.2).1 as [r|e]; [|done].
  destruct (includes _ _).
  - destruct (res_json r); [|done].
    destruct (res_ok r) eqn:Hok; [|done]. intros [= <-]. simpl.
    unfold res_ok in Hok. lia.
  - destruct (res_ok r) eqn:Hok; [|done]. intros [= <-]. simpl.
    unfold res_ok in Hok. lia.
Qed.




(** X18: a request the batch handler turns down has no effect: when it
    answers 405 (not a POST), 404 (unknown connection) or 400 (no array of
    records), it has sent nothing, logged nothing and changed nothing. *)
Theorem handler_rejects_without_effects (req : http_request)
    (w w' : World storage) (resp : http_response) :
  ExecuteHandler.handler req w = (Ok resp, w') →
  statusCode resp = 405 ∨ statusCode resp = 404 ∨ statusCode resp = 400 →
  w' = w.
Proof.
  unfold ExecuteHandler.handler.
  destruct (negb _); [by intros [= <- <-]|].
  unfold try_catch, ExecuteHandler.handler_body, Storage.getConnectionM,
    bind, get_store, ret, throw.
  destruct (req_id req) as [id|]; simpl; [|by intros [= <- <-]].
  destruct (Storage.getConnection id (w_store w)) as [conn|]; simpl;
    [|by intros [= <- <-]].
  destruct (req_json req) as [body|]; simpl;
    [|by intros [= <- <-] [|[|]]].
  destruct (0 <? _)%nat; simpl; [by intros [= <- <-]|].
  destruct (get_property body "records") eqn:Hrec; simpl;
    try by intros [= <- <-] [|[|]].
  destruct (ExecuteHandler.run_records id conn items [] w) as [[results|e] w1];
    simpl; by intros [= <- <-] [|[|]].
Qed.

Lemma handler_rejects_witness :
  ∃ resp w',
    ExecuteHandler.handler malformed_batch_request batch_world
    = (Ok resp, w')
    ∧ statusCode resp = 400
    ∧ w' = batch_world.
Proof.
  eexists _, _. split; [reflexivity|]. split; [reflexivity|].
  eapply (handler_rejects_without_effects malformed_batch_request
            batch_world); [reflexivity|].
  right. right. reflexivity.
Defined.

End BatchHandlerProperties.

(** ** The test and health handlers *)

Section ProbeHandlerProperties.
Import Js Eff.

(** A probe always returns: it leaves the store alone and sends a HEAD
    request, followed by at most one more request. *)
Lemma healthCheck_run {S : Type} (url : string) (w : World S) :
  ∃ v w',
    HttpClient.healthCheck url w = (Ok v, w')
    ∧ w_store w' = w_store w
    ∧ w_net w' = w_net w
    ∧ ∃ rest, w_trace w' = (w_trace w ++ (url, HttpClient.head_opts) :: rest)%list
              ∧ (length rest ≤ 1)%nat.
Proof.
  unfold HttpClient.healthCheck, try_catch, bind, fetch, date_now, ret.
  simpl.
  destruct (w_net w (length (w_trace w)) url HttpClient.head_opts).1
    as [r|e]; simpl.
  - eexists _, _. split; [reflexivity|]. simpl. split_and!; try done.
    exists []. split; [done|simpl; lia].
  - match goal with
    | |- context [(w_net w ?k url HttpClient.get_opts).1] =>
        destruct (w_net w k url HttpClient.get_opts).1 as [r|e']
    end; simpl.
    + eexists _, _. split; [reflexivity|]. simpl. split_and!; try done.
      exists [(url, HttpClient.get_opts)].
      split; [by rewrite <- app_assoc | simpl; lia].
    + eexists _, _. split; [reflexivity|]. simpl. split_and!; try done.
      exists [(url, HttpClient.get_opts)].
      split; [by rewrite <- app_assoc | simpl; lia].
Qed.

Lemma source_check_run (conn : obj) (w : World storage) :
  ∃ source,
    TestHandler.source_check conn w
    = (Ok source,
       after_fetch (source_call conn).1 (source_call conn).2 w)
    ∧ (truthy (get_property source "ok") = true
       ↔ ∃ out, call_result w (length (w_trace w)) (source_call conn)
                = Ok out).
Proof.
  unfold TestHandler.source_check, try_catch, bind at 1.
  unfold bind at 1. rewrite request_run.
  change (rq_url _, HttpClient.build_opts _) with (source_call conn).
  destruct (call_result w (length (w_trace w)) (source_call conn))
    as [out|e] eqn:Hcall; unfold ret; simpl.
  - pose proof (request_ok_status _ _ _ _ Hcall) as Hstatus.
    destruct (hr_status out =? 0) eqn:E; [lia|].
    simpl. eexists. split; [reflexivity|].
    simpl. split; [by eexists | done].
  - eexists. split; [reflexivity|]. simpl. split; [done|].
    by intros [out [=]].
Qed.

(** X19: [POST /api/connections/:id/test] on a known connection answers 200
    with the two checks.  Its first request goes to the source with the
    method GET, its second to the destination with the method HEAD (with at
    most one more request after it).  It leaves the connections as they
    were and puts exactly one [test] event at the head of the log, whose
    [status] is ['ok'] exactly when the source request resolved and the
    destination probe is healthy, and ['fail'] otherwise: a source that
    fails is recorded, it does not fail the test. *)
Theorem test_handler_outcome (req : http_request) (w : World storage)
    (id : string) (conn : obj) :
  req_method req = Some "POST" →
  req_id req = Some id →
  Storage.getConnection id (w_store w) = Some conn →
  ∃ source destination status w',
    TestHandler.handler req w
    = (Ok (json_response 200
             (VObj [("source", source); ("destination", destination)])), w')
    ∧ (∃ head rest,
         w_trace w'
         = (w_trace w
            ++ source_call conn
            :: (to_string (get_property (VObj conn) "destinationUrl"), head)
            :: rest)%list
         ∧ (source_call conn).1
           = to_string (get_property (VObj conn) "sourceUrl")
         ∧ fo_method (source_call conn).2 = VStr "GET"
         ∧ fo_body (source_call conn).2 = None
         ∧ fo_method head = VStr "HEAD"
         ∧ fo_body head = None
         ∧ (length rest ≤ 1)%nat)
    ∧ connections (w_store w') = connections (w_store w)
    ∧ logs (w_store w')
      = take 500
          (Storage.withMeta (w_now w')
             (VObj [("event", VStr "test"); ("connectionId", VStr id);
                    ("status", VStr status)])
           :: logs (w_store w))
    ∧ (status = "ok"
       ↔ (∃ out, call_result w (length (w_trace w)) (source_call conn)
                 = Ok out)
         ∧ truthy (get_property destination "healthy") = true)
    ∧ (status = "ok" ∨ status = "fail").
Proof.
  intros Hmethod Hid Hconn.
  unfold TestHandler.handler. rewrite Hmethod, Hid. simpl.
  unfold bind at 1, Storage.getConnectionM, bind at 1, get_store, ret.
  simpl. rewrite Hconn.
  destruct (source_check_run conn w) as (source & Hsource & Hok).
  set (w1 := after_fetch (source_call conn).1 (source_call conn).2 w) in *.
  destruct (healthCheck_run
              (to_string (get_property (VObj conn) "destinationUrl")) w1)
    as (destination & w2 & Hdest & Hstore & Hnet & rest & Htrace & Hrest).
  simpl in Hdest, Htrace.
  unfold try_catch. unfold bind at 1. rewrite Hsource.
  unfold bind at 1. rewrite Hdest.
  unfold Storage.logEventM, bind, date_now, get_store, put_store. simpl.
  exists source, destination, (TestHandler.test_status source destination).
  eexists. split; [reflexivity|]. simpl. split_and!.
  - exists HttpClient.head_opts, rest. split_and!; try done.
    rewrite Htrace. subst w1. simpl.
    rewrite <- app_assoc. reflexivity.
  - by rewrite Hstore.
  - rewrite Hstore. subst w1. simpl.
    destruct (500 <? S (length (logs (w_store w))))%nat eqn:E; [done|].
    apply Nat.ltb_ge in E. f_equal.
    rewrite take_ge; [done|lia].
  - unfold TestHandler.test_status. rewrite <- Hok.
    destruct (truthy (get_property source "ok"));
      destruct (truthy (get_property destination "healthy")); simpl;
      split; try done; by intros [? ?].
  - unfold TestHandler.test_status. destruct (_ && _); [by left|by right].
Qed.

Lemma test_handler_outcome_witness :
  ∃ source destination w',
    TestHandler.handler sample_test_request batch_world
    = (Ok (json_response 200
             (VObj [("source", source); ("destination", destination)])), w')
    ∧ length (logs (w_store w')) = 1%nat.
Proof.
  destruct (test_handler_outcome sample_test_request batch_world "c1"
              sample_connection eq_refl eq_refl eq_refl)
    as (source & destination & status & w' & Hrun & _ & _ & Hlogs & _).
  exists source, destination, w'. split; [exact Hrun|].
  rewrite Hlogs. reflexivity.
Defined.

Lemma probe_run (url : value) (w : World storage) :
  ∃ v w',
    HealthHandler.probe url w = (Ok v, w')
    ∧ w_store w' = w_store w
    ∧ w_net w' = w_net w
    ∧ ∃ rest, w_trace w'
              = (w_trace w ++ (to_string url, HttpClient.head_opts) :: rest)%list
              ∧ (length rest ≤ 1)%nat.
Proof.
  unfold HealthHandler.probe, try_catch.
  destruct (healthCheck_run (to_string url) w) as (v & w' & -> & H).
  by exists v, w'.
Qed.

(** X20: the health handler always answers, with 200, 404 or 405, and never
    changes the store.  It sends requests only when it answers 200: a
    request with the method HEAD to the source first and one with the
    method HEAD to the destination after it, each followed by at most one
    more request, so at most four in all. *)
Theorem health_handler_read_only (req : http_request) (w : World storage) :
  ∃ resp w',
    HealthHandler.handler req w = (Ok resp, w')
    ∧ w_store w' = w_store w
    ∧ ((statusCode resp = 405 ∧ w_trace w' = w_trace w
        ∧ default "GET" (req_method req) ≠ "GET")
       ∨ (statusCode resp = 404 ∧ w_trace w' = w_trace w
          ∧ (req_id req ≫= λ id, Storage.getConnection id (w_store w))
            = None)
       ∨ (statusCode resp = 200
          ∧ ∃ conn head rest1 rest2,
              (req_id req ≫= λ id, Storage.getConnection id (w_store w))
              = Some conn
              ∧ w_trace w'
                = (w_trace w
                   ++ (to_string (get_property (VObj conn) "sourceUrl"),
                       head) :: rest1
                   ++ (to_string (get_property (VObj conn) "destinationUrl"),
                       head) :: rest2)%list
              ∧ fo_method head = VStr "HEAD"
              ∧ fo_body head = None
              ∧ (length rest1 ≤ 1)%nat ∧ (length rest2 ≤ 1)%nat)).
Proof.
  unfold HealthHandler.handler.
  destruct (String.eqb_spec (default "GET" (req_method req)) "GET")
    as [Hget|Hget]; simpl.
  2: { eexists _, w. split; [reflexivity|]. split; [done|]. by left. }
  unfold bind at 1.
  destruct (req_id req) as [id|]; simpl.
  - unfold Storage.getConnectionM, bind at 1, get_store, ret. simpl.
    destruct (Storage.getConnection id (w_store w)) as [conn|] eqn:Hconn.
    + destruct (probe_run (get_property (VObj conn) "sourceUrl") w)
        as (source & w1 & Hsource & Hstore1 & _ & rest1 & Htrace1 & Hrest1).
      destruct (probe_run (get_property (VObj conn) "destinationUrl") w1)
        as (dest & w2 & Hdest & Hstore2 & _ & rest2 & Htrace2 & Hrest2).
      simpl in Hsource, Hdest, Htrace1, Htrace2.
      unfold bind. rewrite Hsource, Hdest.
      eexists _, w2. split; [reflexivity|]. split; [congruence|].
      right. right. split; [done|].
      exists conn, HttpClient.head_opts, rest1, rest2.
      split; [done|]. split; [|done].
      rewrite Htrace2, Htrace1. rewrite <- app_assoc. done.
    + eexists _, w. split; [reflexivity|]. split; [done|]. right. by left.
  - unfold ret. eexists _, w. split; [reflexivity|]. split; [done|].
    right. by left.
Qed.

End ProbeHandlerProperties.

(** ** The SQL-backed routes, further *)

Section SqlRouteProperties.
Import Js Eff SqlExecute.

(** The three ways a call of the execute route can end. *)
Lemma execute_cases (id : string) (w : World Db) :
  ∃ resp w',
    execute id w = (Ok resp, w')
    ∧ ((w_store w' = w_store w ∧ statusCode resp ≠ 200)
       ∨ (∃ row log,
            connections (w_store w) !! id = Some row
            ∧ statusCode resp = 500
            ∧ connections (w_store w') = connections (w_store w)
            ∧ execution_logs (w_store w')
              = (execution_logs (w_store w) ++ [log])%list
            ∧ connection_id log = id)
       ∨ (∃ row log,
            connections (w_store w) !! id = Some row
            ∧ statusCode resp = 200
            ∧ execution_logs (w_store w')
              = (execution_logs (w_store w) ++ [log])%list
            ∧ connections (w_store w')
              = alter (bump_stats (success log) (w_now w')) id
                  (connections (w_store w))
            ∧ connection_id log = id)).
Proof.
  unfold execute, execute_connection, insert_log, update_stats, try_catch,
    bind, fetch, json, lift, date_now, get_store, put_store, ret, throw.
  repeat (case_match; simplify_eq/=);
    eexists _, _; (split; [reflexivity|]); simpl;
    first [ by left
          | solve [right; left; eexists _, _; split_and!; done]
          | solve [right; right; eexists _, _; split_and!; done] ].
Qed.

(** X21: the books of the SQL-backed execute route.  A call always answers
    (200, 404 or 500) and never throws.  The log table only grows: its rows
    are kept, and at most one row is added, for the executed connection.
    The rows of other connections are untouched and no connection appears
    or disappears.  The executed connection keeps its endpoints and
    mapping; its three counters never decrease, [execution_count] grows by
    what [success_count] and [error_count] grow together, by one exactly
    when the answer is 200, and never without a log row. *)
Theorem execute_keeps_books (id : string) (w : World Db) :
  ∃ resp w' added,
    execute id w = (Ok resp, w')
    ∧ (statusCode resp = 200 ∨ statusCode resp = 404 ∨ statusCode resp = 500)
    ∧ execution_logs (w_store w')
      = (execution_logs (w_store w) ++ added)%list
    ∧ (length added ≤ 1)%nat
    ∧ Forall (λ log, connection_id log = id) added
    ∧ (∀ id', id' ≠ id →
         connections (w_store w') !! id' = connections (w_store w) !! id')
    ∧ (connections (w_store w) !! id = None →
       connections (w_store w') !! id = None ∧ statusCode resp ≠ 200)
    ∧ (∀ row, connections (w_store w) !! id = Some row →
         ∃ row',
           connections (w_store w') !! id = Some row'
           ∧ same_endpoints row row'
           ∧ unclassified row' = unclassified row
           ∧ success_count row ≤ success_count row'
           ∧ error_count row ≤ error_count row'
           ∧ execution_count row'
             = execution_count row + (if statusCode resp =? 200 then 1 else 0)
           ∧ execution_count row'
             ≤ execution_count row + Z.of_nat (length added)).
Proof.
  destruct (execute_cases id w) as (resp & w' & Hrun & Hcases).
  exists resp, w'.
  destruct Hcases as [[Hstore Hstatus]
                     |[(row & log & Hrow & Hstatus & Hconn & Hlogs & Hid)
                      |(row & log & Hrow & Hstatus & Hlogs & Hconn & Hid)]].
  - exists []. split; [done|]. rewrite Hstore, app_nil_r.
    assert (statusCode resp = 404 ∨ statusCode resp = 500) as Hcode.
    { revert Hrun.
      unfold execute, execute_connection, insert_log, update_stats, try_catch,
        bind, fetch, json, lift, date_now, get_store, put_store, ret, throw.
      repeat (case_match; simplify_eq/=); intros [= <- <-]; simpl in *;
        try (by left); try (by right); done. }
    split_and!; try done.
    + destruct Hcode; [by right; left | by right; right].
    + simpl. lia.
    + intros row Hrow. exists row.
      destruct (statusCode resp =? 200) eqn:E; [lia|].
      unfold same_endpoints. split_and!; try done; simpl; lia.
  - exists [log]. split; [done|]. rewrite Hconn, Hlogs, Hstatus.
    split_and!; try done; try (by constructor); try (by right; right);
      try (intros ?; congruence).
    intros row0 Hrow0. exists row0.
    unfold same_endpoints. split_and!; try done; simpl; lia.
  - exists [log]. split; [done|]. rewrite Hconn, Hlogs, Hstatus.
    split_and!; try done; try (by constructor); try (by left);
      try (intros ?; congruence);
      try (by intros id' Hne; rewrite lookup_alter_ne).
    intros row0 Hrow0. assert (row0 = row) as -> by congruence.
    exists (bump_stats (success log) (w_now w') row).
    rewrite lookup_alter_eq, Hrow. simpl.
    unfold same_endpoints, unclassified. simpl.
    split_and!; try done; destruct (success log); lia.
Qed.

Lemma delete_connection_run (id : string) (w : World Db) :
  SqlRoutes.delete_connection id w
  = match connections (w_store w) !! id with
    | None =>
        (Ok (express_json 404 (VObj [("error", VStr "Connection not found")])),
         w)
    | Some row =>
        (Ok (express_json 200
               (VObj [("message",
                       VStr ("Connection '" ++ row_name row
                             ++ "' deleted successfully"))])),
         {| w_net := w_net w; w_now := w_now w; w_trace := w_trace w;
            w_store := SqlRoutes.delete_rows id (w_store w) |})
    end.
Proof.
  unfold SqlRoutes.delete_connection, try_catch, bind, get_store, put_store,
    ret.
  simpl. destruct (connections (w_store w) !! id); [done|]. by destruct w.
Qed.

(** X22: the routes keep the foreign key of the log table.  When every log
    row belongs to a stored connection, this is still so after the execute
    route has run, whatever its outcome, and after the delete route has
    run: a deleted connection takes its log rows with it. *)
Theorem routes_keep_foreign_key (id : string) (w : World Db) :
  db_consistent (w_store w) →
  db_consistent (w_store (execute id w).2)
  ∧ db_consistent (w_store (SqlRoutes.delete_connection id w).2).
Proof.
  unfold db_consistent. intros Hdb. split.
  - destruct (execute_cases id w) as (resp & w' & Hrun & Hcases).
    rewrite Hrun. simpl.
    destruct Hcases as [[Hstore _]
                       |[(row & log & Hrow & _ & Hconn & Hlogs & Hid)
                        |(row & log & Hrow & _ & Hlogs & Hconn & Hid)]].
    + by rewrite Hstore.
    + rewrite Hlogs, Hconn. apply Forall_app. split; [done|].
      constructor; [|constructor]. rewrite Hid, Hrow. by eexists.
    + rewrite Hlogs, Hconn. apply Forall_app. split.
      * eapply Forall_impl; [exact Hdb|]. intros r [c Hc]. simpl.
        destruct (decide (connection_id r = id)) as [Heq|Hne].
        -- rewrite Heq, lookup_alter_eq, Hrow. by eexists.
        -- rewrite lookup_alter_ne; [by eexists | done].
      * constructor; [|constructor].
        rewrite Hid, lookup_alter_eq, Hrow. by eexists.
  - rewrite delete_connection_run.
    destruct (connections (w_store w) !! id) as [row|] eqn:Hrow; [|done].
    simpl. apply Forall_forall. intros r Hr.
    apply list_elem_of_In, filter_In in Hr as [Hr Hne].
    apply list_elem_of_In in Hr. rewrite Forall_forall in Hdb.
    specialize (Hdb r Hr). rewrite lookup_delete_ne; [done|].
    intros Heq. by rewrite Heq, String.eqb_refl in Hne.
Qed.

Lemma routes_keep_foreign_key_witness :
  db_consistent logged_db
  ∧ db_consistent (w_store (execute "c1" logged_world).2)
  ∧ db_consistent (w_store (SqlRoutes.delete_connection "c1" logged_world).2).
Proof.
  assert (db_consistent logged_db) as Hdb.
  { constructor; [|constructor]. by eexists. }
  split; [exact Hdb|]. exact (routes_keep_foreign_key "c1" logged_world Hdb).
Defined.

(** X23: the delete route.  It answers 200 exactly when the connection
    exists and 404 otherwise, in which case nothing changes; it sends no
    request and never throws.  Afterwards the connection is not stored and
    every other connection is as it was.  When the connection existed, the
    log rows left are exactly the rows of other connections, in their
    order.  Deleting again answers 404 and changes nothing. *)
Theorem delete_connection_removes (id : string) (w : World Db) :
  ∃ resp w',
    SqlRoutes.delete_connection id w = (Ok resp, w')
    ∧ (statusCode resp
       = match connections (w_store w) !! id with
         | Some _ => 200
         | None => 404
         end)
    ∧ w_trace w' = w_trace w
    ∧ connections (w_store w') !! id = None
    ∧ (∀ id', id' ≠ id →
         connections (w_store w') !! id' = connections (w_store w) !! id')
    ∧ (is_Some (connections (w_store w) !! id) →
       ∀ row, row ∈ execution_logs (w_store w')
              ↔ row ∈ execution_logs (w_store w) ∧ connection_id row ≠ id)
    ∧ sublist (execution_logs (w_store w')) (execution_logs (w_store w))
    ∧ (connections (w_store w) !! id = None → w' = w)
    ∧ ∃ resp', SqlRoutes.delete_connection id w' = (Ok resp', w')
               ∧ statusCode resp' = 404.
Proof.
  rewrite delete_connection_run.
  destruct (connections (w_store w) !! id) as [row|] eqn:Hrow.
  - eexists _, _. split; [reflexivity|]. simpl. split_and!; try done.
    + apply lookup_delete_eq.
    + intros id' Hne. by apply lookup_delete_ne.
    + intros _ r. rewrite !list_elem_of_In, filter_In. split.
      * intros [Hr Hne]. split; [done|].
        intros Heq. by rewrite Heq, String.eqb_refl in Hne.
      * intros [Hr Hne]. split; [done|].
        by apply negb_true_iff, String.eqb_neq.
    + apply filter_sublist.
    + rewrite delete_connection_run. simpl. rewrite lookup_delete_eq.
      by eexists.
  - eexists _, _. split; [reflexivity|]. simpl. split_and!; try done.
    rewrite delete_connection_run, Hrow. by eexists.
Qed.

(** X24: the test route of the SQL-backed server contacts both endpoints of
    a stored connection, whatever the first one does: it sends the source
    request and then the destination request with body [{}], answers 200
    with one entry per endpoint, in that order, and leaves the database as
    it was.  An endpoint that answered is reported with its status and
    [ok], one whose request threw with the error's message. *)
Theorem test_connection_probes_both (id : string) (row : ConnectionRow)
    (w : World Db) :
  connections (w_store w) !! id = Some row →
  ∃ source destination w',
    SqlRoutes.test_connection id w
    = (Ok (express_json 200
             (VObj [("connection_id", VStr id);
                    ("tests", VArr [source; destination])])), w')
    ∧ w_store w' = w_store w
    ∧ w_trace w'
      = (w_trace w ++ [(source_url row, source_opts row);
                       (dest_url row, dest_opts row (VObj []))])%list
    ∧ reported "source"
        (w_net w (length (w_trace w)) (source_url row) (source_opts row)).1
        source
    ∧ reported "destination"
        (w_net w (S (length (w_trace w))) (dest_url row)
           (dest_opts row (VObj []))).1
        destination.
Proof.
  intros Hrow.
  assert (length (w_trace w ++ [(source_url row, source_opts row)])
          = S (length (w_trace w))) as Hlen.
  { rewrite length_app. simpl. lia. }
  unfold SqlRoutes.test_connection, SqlRoutes.endpoint_test, try_catch, bind,
    fetch, get_store, ret.
  rewrite Hrow. unfold reported.
  destruct (w_net w (length (w_trace w)) (source_url row) (source_opts row)).1
    as [rs|es]; simpl; rewrite Hlen;
    destruct (w_net w (S (length (w_trace w))) (dest_url row)
                (dest_opts row (VObj []))).1 as [rd|ed];
    eexists _, _, _; (split; [reflexivity|]); simpl;
    rewrite <- app_assoc; split_and!; done.
Qed.

Lemma test_connection_probes_both_witness :
  ∃ source destination w',
    SqlRoutes.test_connection "c1" source_down_world
    = (Ok (express_json 200
             (VObj [("connection_id", VStr "c1");
                    ("tests", VArr [source; destination])])), w')
    ∧ length (w_trace w') = 2%nat
    ∧ get_property source "ok" = VBool false
    ∧ get_property destination "status" = VNum 503.
Proof.
  destruct (test_connection_probes_both "c1" sample_row source_down_world
              eq_refl)
    as (source & destination & w' & Hrun & _ & Htrace & Hs & Hd).
  exists source, destination, w'. split; [exact Hrun|].
  split; [by rewrite Htrace|].
  destruct Hs as (_ & _ & Hok & _). destruct Hd as (_ & Hstatus & _).
  split; [exact Hok | exact Hstatus].
Defined.

(** The fields [apply_rules] leaves: those that were there, and those a
    rule wrote with a value other than [undefined]. *)
Lemma apply_rules_fields (sourceData : value) (rules : list value) :
  ∀ (destData out : obj),
    apply_rules sourceData rules destData = Ok out →
    ∀ k x, obj_get out k = Some x →
      obj_get destData k = Some x
      ∨ (x ≠ VUndefined
         ∧ ∃ rule, rule ∈ rules ∧ written_by sourceData rule k x).
Proof.
  induction rules as [|rule rest IH]; intros destData out Hrun k x Hget.
  - simpl in Hrun. injection Hrun as <-. by left.
  - simpl in Hrun.
    destruct (apply_rule sourceData destData rule) as [mid|e] eqn:Hrule;
      [|done].
    destruct (IH mid out Hrun k x Hget) as [Hmid|(Hdef & r & Hr & Hw)].
    2: { right. split; [done|]. exists r. split; [by right | done]. }
    assert (mid = destData
            ∨ ∃ path,
                get_property rule "source_path" = VStr path
                ∧ getNestedValue sourceData path ≠ VUndefined
                ∧ mid = obj_set destData
                          (to_string (get_property rule "dest_field"))
                          (getNestedValue sourceData path)) as [->|Hset].
    { revert Hrule. unfold apply_rule.
      destruct rule; try done;
        (destruct (truthy _ && truthy _); [|by intros [= <-]; left]);
        (destruct (get_property _ "source_path") as [| | | |path| |] eqn:Hp;
         try done);
        (destruct (getNestedValue sourceData path) eqn:Hv; simpl;
         intros [= <-]; first [by left | right; exists path; by rewrite Hv]). }
    + by left.
    + destruct Hset as (path & Hpath & Hdef & ->).
      apply obj_get_set_inv in Hmid as [Hold|[Hk ->]]; [by left|].
      right. split; [done|]. exists rule. split; [by left|].
      by exists path.
Qed.

(** X25: what the SQL-backed route sends on.  Without mapping rules (the
    column is NULL or an empty array) it is the source data itself.  With
    rules it is a fresh object that holds only fields written by a rule:
    each has the name of a rule's [dest_field] and the value that rule's
    [source_path] selects in the source data, and that value is never
    [undefined]: a rule whose path selects nothing writes no field. *)
Theorem map_source_fields (sourceData : value) (row : ConnectionRow) :
  (mapping_rules row = None ∨ mapping_rules row = Some [] →
   map_source sourceData row = Ok sourceData)
  ∧ (∀ rules destData,
       mapping_rules row = Some rules → rules ≠ [] →
       map_source sourceData row = Ok destData →
       ∃ fields,
         destData = VObj fields
         ∧ ∀ k x, obj_get fields k = Some x →
             x ≠ VUndefined
             ∧ ∃ rule, rule ∈ rules ∧ written_by sourceData rule k x).
Proof.
  unfold map_source. split.
  - by intros [-> | ->].
  - intros rules destData -> Hne.
    destruct rules as [|rule rest]; [done|].
    destruct (apply_rules sourceData (rule :: rest) []) as [fields|e] eqn:Hrun;
      [|done].
    intros [= <-]. exists fields. split; [done|]. intros k x Hget.
    by destruct (apply_rules_fields _ _ _ _ Hrun k x Hget) as [Hnil|H].
Qed.

Lemma map_source_fields_witness :
  ∃ fields,
    map_source (VObj [("order", VNum 17)]) sample_rule_row = Ok (VObj fields)
    ∧ obj_get fields "id" = Some (VNum 17)
    ∧ obj_get fields "note" = None
    ∧ ∀ k x, obj_get fields k = Some x → x ≠ VUndefined.
Proof.
  destruct (proj2 (map_source_fields (VObj [("order", VNum 17)])
                     sample_rule_row) _ (VObj [("id", VNum 17)]) eq_refl
              ltac:(discriminate) eq_refl)
    as (fields & Heq & Hfields).
  injection Heq as <-. exists [("id", VNum 17)].
  split; [reflexivity|]. split; [reflexivity|]. split; [reflexivity|].
  intros k x Hget. exact (proj1 (Hfields k x Hget)).
Defined.

End SqlRouteProperties.

(** ** The serverless handler, further *)

Section SheetsHandlerProperties.
Import Js Eff SheetsExecute.

Lemma merged_request_world {S : Type} (spec : request_spec) (w : World S) :
  (MergedHttpClient.request spec w).2
  = after_fetch (rq_url spec) (MergedHttpClient.build_options spec) w.
Proof.
  unfold MergedHttpClient.request, try_catch, bind, fetch, json, ret, throw.
  destruct (w_net w _ _ _).1 as [r|e]; simpl; [|done].
  destruct (MergedHttpClient.is_json r); simpl.
  - destruct (res_json r); simpl; [|done]. by destruct (res_ok r).
  - by destruct (res_ok r).
Qed.

(** X26: the serverless handler stops at a failed source.  When the request
    to the source of a stored connection throws, the handler answers 500
    with ["Source endpoint failed: "] and the error's message; the source
    request is the only request it has sent, so the destination is never
    contacted; the stored connections are as they were, and one
    [EXECUTION_FAILED] entry with the error's message has been logged. *)
Theorem sheets_handler_stops_at_failed_source (env : string → value)
    (req : api_request) (w w1 : World Sheets) (id : string) (c : Connection)
    (e : js_error) :
  api_method req = "POST" →
  get_property (api_body req) "connectionId" = VStr id →
  id ≠ "" →
  sheet_connections (w_store w) !! id = Some c →
  MergedHttpClient.request
    (source_request env c (get_property (api_body req) "sourceData")) w
  = (Throw e, w1) →
  ∃ entry w',
    handler env req w
    = (Ok (failed 500 ("Source endpoint failed: " ++ err_message e)), w')
    ∧ w_trace w'
      = (w_trace w
         ++ [(sourceUrl c,
              MergedHttpClient.build_options
                (source_request env c
                   (get_property (api_body req) "sourceData")))])%list
    ∧ sheet_connections (w_store w') = sheet_connections (w_store w)
    ∧ sheet_log (w_store w') = (sheet_log (w_store w) ++ [entry])%list
    ∧ get_property entry "connectionId" = VStr id
    ∧ get_property entry "event" = VStr "EXECUTION_FAILED"
    ∧ get_property entry "error" = VStr (err_message e).
Proof.
  intros Hmethod Hid Hne Hconn Hreq.
  pose proof (merged_request_world
                (source_request env c
                   (get_property (api_body req) "sourceData")) w) as Hworld.
  rewrite Hreq in Hworld. simpl in Hworld.
  assert (truthy (VStr id) = true) as Htruthy.
  { simpl. by apply negb_true_iff, String.eqb_neq. }
  unfold handler. rewrite Hmethod.
  change (negb ("POST" =? "POST")%string) with false. cbv iota.
  destruct (api_body req) as [| |b|n|s|l|o] eqn:Hb;
    try (by simpl in Hid); try (by vm_compute in Hid).
  cbv iota. rewrite Hid, Htruthy. cbn [negb]. unfold try_catch at 1.
  run_step ltac:(reflexivity).
  run_step ltac:(unfold getConnection, bind, get_store, ret; simpl;
                 rewrite Hconn; reflexivity).
  unfold fetch_and_map.
  run_step ltac:(unfold try_catch, bind; rewrite Hreq; reflexivity).
  cbv iota.
  run_step ltac:(reflexivity).
  run_step ltac:(reflexivity).
  run_step ltac:(reflexivity).
  eexists _, _. split; [reflexivity|]. subst w1. simpl.
  split_and!; done.
Qed.

Lemma sheets_handler_stops_witness :
  ∃ message w',
    handler no_env sample_api_request source_down_sheets_world
    = (Ok (failed 500 ("Source endpoint failed: " ++ message)), w')
    ∧ length (w_trace w') = 1%nat
    ∧ length (sheet_log (w_store w')) = 1%nat.
Proof.
  destruct (sheets_handler_stops_at_failed_source no_env sample_api_request
              source_down_sheets_world _ "c1" sample_sheet_connection _
              eq_refl eq_refl ltac:(discriminate) eq_refl eq_refl)
    as (entry & w' & Hrun & Htrace & _ & Hlog & _).
  eexists _, w'. split; [exact Hrun|].
  split; [by rewrite Htrace | by rewrite Hlog].
Defined.

End SheetsHandlerProperties.
